(** * pyrolite.ext.alphamelts.tables: reading alphaMELTS table outputs

    A shallow embedding of [pyrolite/ext/alphamelts/tables.py]: the
    [MeltsOutput] class (its constructor, [read_table], the table loaders and
    [_read_phasemain]), [get_experiments_summary] and
    [write_summary_phaselist], with the properties the specification states
    about them.

    Python values are modelled as the code has them: text as [string], the
    numbers of a table as binary64 floats, dictionaries as insertion-ordered
    association lists, sets as [gset] (the order in which one is iterated
    is a parameter), paths by the text [pathlib] renders them as, exceptions
    as an error result that is threaded, together with the object under
    construction and the debug log, through a state-and-exception monad. *)

From Stdlib Require Import Floats ZArith Lia Strings.Ascii Strings.String.
From stdpp Require Import base option list strings gmap.

Local Open Scope Z_scope.

(* Decimal literals such as 273.15 denote the nearest binary64 value, as in
   Python. *)
Set Warnings "-inexact-float".

(** ** Python built-ins on text *)

Module Py.

Definition LF : ascii := Ascii.ascii_of_nat 10.
Definition CR : ascii := Ascii.ascii_of_nat 13.

(** [str.isspace] on the ASCII range: tab, line feed, vertical tab, form
    feed, carriage return, the four separators 28..31 and the space. *)
Definition isspace (c : ascii) : bool :=
  let n := Ascii.nat_of_ascii c in
  ((9 <=? n)%nat && (n <=? 13)%nat) || ((28 <=? n)%nat && (n <=? 32)%nat).

Definition len (s : string) : Z := Z.of_nat (String.length s).

(** [s.find(c)] for a one-character needle: the index of the first
    occurrence, [-1] when there is none. *)
Fixpoint find (c : ascii) (s : string) : Z :=
  match s with
  | EmptyString => -1
  | String d s' =>
      if Ascii.eqb c d then 0
      else let r := find c s' in if r <? 0 then -1 else r + 1
  end.

(** [s[:k]] for [0 <= k]. *)
Fixpoint take (k : nat) (s : string) : string :=
  match k, s with
  | S k', String c s' => String c (take k' s')
  | _, _ => EmptyString
  end.

Definition slice_to (k : Z) (s : string) : string := take (Z.to_nat k) s.

(** [sep.join(l)]. *)
Fixpoint join (sep : string) (l : list string) : string :=
  match l with
  | [] => EmptyString
  | [x] => x
  | x :: rest => x +:+ sep +:+ join sep rest
  end.

(** [c * n] for a one-character string. *)
Fixpoint repeat_char (c : ascii) (n : nat) : string :=
  match n with
  | O => EmptyString
  | S n' => String c (repeat_char c n')
  end.

(** [" " * k]: a non-positive count gives the empty string. *)
Definition spaces (k : Z) : string := repeat_char " "%char (Z.to_nat k).

Definition snoc (s : string) (c : ascii) : string := s +:+ String c EmptyString.

(** [s.split(sep)] for a non-empty separator: cut at every occurrence,
    scanning left to right; [skip] counts the characters of a separator
    just matched that are still to be passed over. *)
Fixpoint split_go (sep : string) (skip : nat) (cur s : string) : list string :=
  match s with
  | EmptyString => [cur]
  | String c s' =>
      match skip with
      | S k => split_go sep k cur s'
      | O =>
          if String.prefix sep s
          then cur :: split_go sep (String.length sep - 1) EmptyString s'
          else split_go sep 0 (snoc cur c) s'
      end
  end.

Definition split (sep s : string) : list string := split_go sep 0 EmptyString s.

(** [re.split(r"[\n\r]", s)]: cut at every line feed and carriage return. *)
Fixpoint re_split_newlines_go (cur s : string) : list string :=
  match s with
  | EmptyString => [cur]
  | String c s' =>
      if Ascii.eqb c LF || Ascii.eqb c CR
      then cur :: re_split_newlines_go EmptyString s'
      else re_split_newlines_go (snoc cur c) s'
  end.

Definition re_split_newlines (s : string) : list string :=
  re_split_newlines_go EmptyString s.

(** [s.split()]: the maximal runs of non-whitespace characters. *)
Fixpoint split_ws_go (cur s : string) : list string :=
  match s with
  | EmptyString => match cur with EmptyString => [] | _ => [cur] end
  | String c s' =>
      if isspace c
      then match cur with
           | EmptyString => split_ws_go EmptyString s'
           | _ => cur :: split_ws_go EmptyString s'
           end
      else split_ws_go (snoc cur c) s'
  end.

Definition split_ws (s : string) : list string := split_ws_go EmptyString s.

Fixpoint lstrip (s : string) : string :=
  match s with
  | String c s' => if isspace c then lstrip s' else s
  | EmptyString => EmptyString
  end.

Fixpoint rev_go (acc s : string) : string :=
  match s with
  | EmptyString => acc
  | String c s' => rev_go (String c acc) s'
  end.

Definition rev (s : string) : string := rev_go EmptyString s.

Definition rstrip (s : string) : string := rev (lstrip (rev s)).

(** [s.strip()]. *)
Definition strip (s : string) : string := rstrip (lstrip s).

(** [s.replace(old, new)] for a non-empty [old]. *)
Fixpoint replace_go (old new : string) (skip : nat) (s : string) : string :=
  match s with
  | EmptyString => EmptyString
  | String c s' =>
      match skip with
      | S k => replace_go old new k s'
      | O =>
          if String.prefix old s
          then new +:+ replace_go old new (String.length old - 1) s'
          else String c (replace_go old new 0 s')
      end
  end.

Definition replace (old new s : string) : string := replace_go old new 0 s.

(** [f.readline()] on a freshly opened file: the text up to and including
    the first line feed. *)
Fixpoint readline (s : string) : string :=
  match s with
  | EmptyString => EmptyString
  | String c s' => if Ascii.eqb c LF then String c EmptyString else String c (readline s')
  end.

(** [max(l)] is a [ValueError] on an empty list: [None] here. *)
Definition max_of (l : list Z) : option Z :=
  match l with
  | [] => None
  | x :: rest => Some (fold_left Z.max rest x)
  end.

End Py.

Definition nl : string := String Py.LF EmptyString.

(** ** pathlib: pure POSIX paths *)

Module Pathlib.

(** A path as [pathlib] keeps it: the root (empty for a relative path) and
    the parts after it. *)
Record PurePath : Type := {
  root : string;
  parts : list string
}.

(** [part.lstrip("/")]. *)
Fixpoint lstrip_sep (s : string) : string :=
  match s with
  | String c s' => if Ascii.eqb c "/" then lstrip_sep s' else s
  | EmptyString => EmptyString
  end.

(** [splitroot]: the root and the rest; exactly two leading slashes are a
    root of their own, any other number of them is one slash. *)
Definition splitroot (part : string) : string * string :=
  let stripped := lstrip_sep part in
  match (String.length part - String.length stripped)%nat with
  | 0%nat => (EmptyString, part)
  | 2%nat => ("//", stripped)
  | _ => ("/", stripped)
  end.

(** The parts of the rest: empty parts and ["."] are dropped. *)
Definition components (rel : string) : list string :=
  List.filter (fun x => negb (String.eqb x "") && negb (String.eqb x "."))
              (Py.split "/" rel).

(** [Path(s)]. *)
Definition of_str (s : string) : PurePath :=
  {| root := fst (splitroot s); parts := components (snd (splitroot s)) |}.

(** [p / key]: a rooted [key] replaces [p]. *)
Definition div (p : PurePath) (key : string) : PurePath :=
  let q := of_str key in
  if String.eqb (root q) ""
  then {| root := root p; parts := parts p ++ parts q |}
  else q.

(** [str(p)]. *)
Definition str (p : PurePath) : string :=
  match root p, parts p with
  | EmptyString, [] => "."
  | r, l => r +:+ Py.join "/" l
  end.

(** [p.parent] and [p.name]. *)
Definition parent (p : PurePath) : PurePath :=
  {| root := root p; parts := removelast (parts p) |}.

Definition name (p : PurePath) : string := List.last (parts p) EmptyString.

End Pathlib.


(** ** Exceptions and results *)

Inductive exn : Type :=
| FileNotFoundError
| NotADirectoryError
| IndexError
| TypeError
| ValueError
| AttributeError
| IsADirectoryError
| KeyError
| ParserError.

Inductive result (A : Type) : Type :=
| Ok (a : A)
| Raise (e : exn).

Arguments Ok {A} a.
Arguments Raise {A} e.

Definition result_bind {A B : Type} (r : result A) (k : A -> result B) : result B :=
  match r with
  | Ok a => k a
  | Raise e => Raise e
  end.

Definition result_map {A B : Type} (f : A -> B) (r : result A) : result B :=
  result_bind r (fun a => Ok (f a)).

Fixpoint result_mapM {A B : Type} (f : A -> result B) (l : list A) : result (list B) :=
  match l with
  | [] => Ok []
  | x :: rest =>
      result_bind (f x) (fun y =>
      result_bind (result_mapM f rest) (fun ys => Ok (y :: ys)))
  end.

(** ** Python dictionaries: insertion-ordered, one entry per key *)

Abbreviation dict K V := (list (K * V)).

Section Dict.
Context {K V : Type} `{EqDecision K}.

(** [d[k] = v]: an existing key keeps its place and takes the new value, a
    new key goes to the end. *)
Fixpoint dict_set (k : K) (v : V) (d : dict K V) : dict K V :=
  match d with
  | [] => [(k, v)]
  | (k', v') :: d' =>
      if decide (k' = k) then (k, v) :: d' else (k', v') :: dict_set k v d'
  end.

(** [d.get(k)]. *)
Fixpoint dict_get (k : K) (d : dict K V) : option V :=
  match d with
  | [] => None
  | (k', v') :: d' => if decide (k' = k) then Some v' else dict_get k d'
  end.

Definition dict_keys (d : dict K V) : list K := map fst d.

Definition dict_has (k : K) (d : dict K V) : bool := bool_decide (k ∈ dict_keys d).

(** A run of assignments, in order. *)
Definition dict_update (kvs : list (K * V)) (d : dict K V) : dict K V :=
  fold_left (fun acc kv => dict_set (fst kv) (snd kv) acc) kvs d.
End Dict.

(** ** The table library (pandas), as far as the module uses it *)

Module Pd.

(** A cell holds a binary64 number (NaN for a missing value) or text. *)
Inductive cell : Type :=
| Num (f : float)
| Str (s : string).

Abbreviation column := (list cell).

(** A frame: its columns in order, each under its name. *)
Abbreviation DataFrame := (dict string (list cell)).

(** [pd.DataFrame()]. *)
Definition empty : DataFrame := [].

(** [name in df.columns]. *)
Definition has_column (name : string) (df : DataFrame) : bool := dict_has name df.

Definition isna (c : cell) : bool :=
  match c with
  | Num f => PrimFloat.is_nan f
  | Str _ => false
  end.

(** [df.dropna(how="all", axis=1)]: drop the columns with no value at all. *)
Definition dropna_all_columns (df : DataFrame) : DataFrame :=
  List.filter (fun nc => negb (forallb isna (snd nc))) df.

(** [cell - x]: text minus a number is a [TypeError]. *)
Definition cell_sub (x : float) (c : cell) : result cell :=
  match c with
  | Num f => Ok (Num (PrimFloat.sub f x))
  | Str _ => Raise TypeError
  end.

(** [df.<name> -= x] on a column that is there. *)
Definition isub_column (name : string) (x : float) (df : DataFrame) : result DataFrame :=
  match dict_get name df with
  | None => Raise AttributeError
  | Some col => result_map (fun col' => dict_set name col' df) (result_mapM (cell_sub x) col)
  end.

(** [df.loc[:, name] = df.loc[:, name].apply(f)]. *)
Definition apply_column (name : string) (f : cell -> result cell) (df : DataFrame)
  : result DataFrame :=
  match dict_get name df with
  | None => Raise KeyError
  | Some col => result_map (fun col' => dict_set name col' df) (result_mapM f col)
  end.

(** The cell of column [name] in row [i]. *)
Definition at_row (name : string) (i : nat) (df : DataFrame) : option cell :=
  match dict_get name df with
  | None => None
  | Some col => col !! i
  end.

End Pd.

Export Pd(cell, Num, Str).

(** ** Helpers of the package that the module imports *)

(** Modelled from the spec: [pyrolite.util.pd.zero_to_nan], which is not
    among the sources: "normalize zeros-as-missing to proper missing
    values" -- every numeric zero becomes NaN. *)
Definition zero_to_nan_cell (c : cell) : cell :=
  match c with
  | Num f => if PrimFloat.eqb f 0%float then Num PrimFloat.nan else Num f
  | Str s => Str s
  end.

Definition zero_to_nan (df : Pd.DataFrame) : Pd.DataFrame :=
  map (fun nc => (fst nc, map zero_to_nan_cell (snd nc))) df.

(** Molar masses of MgO and FeO (g/mol). *)
Definition mass_MgO : float := 40.3044%float.
Definition mass_FeO : float := 71.8444%float.

(** The molar ratio Mg / (Mg + Fe) from the two oxide weights. *)
Definition MgNo (mgo feo : float) : float :=
  let mg := PrimFloat.div mgo mass_MgO in
  let fe := PrimFloat.div feo mass_FeO in
  PrimFloat.div mg (PrimFloat.add mg fe).

Definition MgNo_cell (mgo feo : cell) : cell :=
  match mgo, feo with
  | Num a, Num b => Num (MgNo a b)
  | _, _ => Num PrimFloat.nan
  end.

Fixpoint MgNo_column (mgo feo : Pd.column) : Pd.column :=
  match mgo, feo with
  | a :: mgo', b :: feo' => MgNo_cell a b :: MgNo_column mgo' feo'
  | _, _ => []
  end.

(** Modelled from the spec: [pyrolite.geochem.transform.add_MgNo], which is
    not among the sources, in the form the module calls it
    ([df.add_MgNo(components=True)], the result discarded): "derive and
    append an Mg-number column" whose value "equals the standard molar ratio
    formula", in place, under the name ["Mg#"]. *)
Definition add_MgNo (df : Pd.DataFrame) : result Pd.DataFrame :=
  match dict_get "MgO" df, dict_get "FeO" df with
  | Some mgo, Some feo => Ok (dict_set "Mg#" (MgNo_column mgo feo) df)
  | _, _ => Raise KeyError
  end.

(** ** State and exceptions

    A computation runs on a state [S] (the object under construction and the
    debug log, or the log alone) and ends with a value or a raised exception;
    the state reached is kept in both cases, as assignments made before a
    [raise] stay made. *)

Definition ST (S A : Type) : Type := S -> result A * S.

Definition ret {S A : Type} (a : A) : ST S A := fun s => (Ok a, s).

Definition bind {S A B : Type} (m : ST S A) (k : A -> ST S B) : ST S B :=
  fun s =>
    match m s with
    | (Ok a, s') => k a s'
    | (Raise e, s') => (Raise e, s')
    end.

Definition lift {S A : Type} (r : result A) : ST S A := fun s => (r, s).

Definition raise {S A : Type} (e : exn) : ST S A := lift (Raise e).

Definition gets {S A : Type} (f : S -> A) : ST S A := fun s => (Ok (f s), s).

Definition modify {S : Type} (f : S -> S) : ST S unit := fun s => (Ok tt, f s).

(** [try: m except: h] with a bare [except]. *)
Definition try_except {S A : Type} (m h : ST S A) : ST S A :=
  fun s =>
    match m s with
    | (Ok a, s') => (Ok a, s')
    | (Raise _, s') => h s'
    end.

Declare Scope st_scope.
Delimit Scope st_scope with st.
Notation "x <- m ;; k" := (bind m (fun x => k))
  (at level 100, m at next level, right associativity) : st_scope.
Notation "m ;; k" := (bind m (fun _ => k))
  (at level 100, right associativity) : st_scope.

(** [for x in l: body x]. *)
Fixpoint for_each {S A : Type} (body : A -> ST S unit) (l : list A) : ST S unit :=
  match l with
  | [] => ret tt
  | x :: rest => (body x ;; for_each body rest)%st
  end.

(** ** The file system *)

(** Files and directories are found by the text of their path, [str(p)]. *)
Record filesystem : Type := {
  (** the text of each regular file, by path *)
  file_content : string -> option string;
  (** the entry names of each directory, by path, in the order [iterdir]
      yields them *)
  dir_entries : string -> option (list string)
}.

(** [str(Path(dir) / name)]: the text a path is logged as and opened by. *)
Definition path_join (dir name : string) : string :=
  Pathlib.str (Pathlib.div (Pathlib.of_str dir) name).

(** [str(Path(path).parent)] and [Path(path).name]. *)
Definition path_parent (path : string) : string :=
  Pathlib.str (Pathlib.parent (Pathlib.of_str path)).

Definition path_name (path : string) : string :=
  Pathlib.name (Pathlib.of_str path).

(** [open(path)] for reading, and reading all of it. A path that holds no
    file counts as missing; a directory at the path is not told apart. *)
Definition open_read (fs : filesystem) (path : string) : result string :=
  match file_content fs path with
  | Some text => Ok text
  | None => Raise FileNotFoundError
  end.

(** [open(path, "w")] followed by one [write] of [text]: the file takes the
    text, and its name is entered in its directory if it was not there. *)
Definition open_write (fs : filesystem) (path text : string) : result filesystem :=
  let dir := path_parent path in
  let name := path_name path in
  match dir_entries fs path, dir_entries fs dir with
  | Some _, _ => Raise IsADirectoryError
  | None, None =>
      match file_content fs dir with
      | Some _ => Raise NotADirectoryError
      | None => Raise FileNotFoundError
      end
  | None, Some names =>
      Ok {| file_content := fun p => if String.eqb p path then Some text else file_content fs p;
            dir_entries := fun p =>
              if String.eqb p dir && negb (bool_decide (name ∈ names))
              then Some (names ++ [name]) else dir_entries fs p |}
  end.

(** ** MeltsOutput *)

(** What an attribute set by the constructor can hold. *)
Inductive pyval : Type :=
| PyNone
| PyDataFrame (df : Pd.DataFrame).

Record MeltsOutput : Type := {
  title : option string;
  kelvin : bool;
  phasenames : gset string;
  majors : gset string;
  traces : gset string;
  phases : dict string Pd.DataFrame;
  (** the attributes assigned with [setattr]: the eight table slots *)
  attrs : dict string pyval
}.

Definition with_title (t : option string) (o : MeltsOutput) : MeltsOutput :=
  {| title := t; kelvin := kelvin o; phasenames := phasenames o; majors := majors o;
     traces := traces o; phases := phases o; attrs := attrs o |}.

Definition with_phasenames (ns : gset string) (o : MeltsOutput) : MeltsOutput :=
  {| title := title o; kelvin := kelvin o; phasenames := ns; majors := majors o;
     traces := traces o; phases := phases o; attrs := attrs o |}.

Definition with_phases (ps : dict string Pd.DataFrame) (o : MeltsOutput) : MeltsOutput :=
  {| title := title o; kelvin := kelvin o; phasenames := phasenames o; majors := majors o;
     traces := traces o; phases := ps; attrs := attrs o |}.

Definition with_attrs (a : dict string pyval) (o : MeltsOutput) : MeltsOutput :=
  {| title := title o; kelvin := kelvin o; phasenames := phasenames o; majors := majors o;
     traces := traces o; phases := phases o; attrs := a |}.

(** The object a method runs on, and the module's logger: the debug
    messages emitted so far, oldest first. *)
Record world : Type := {
  self : MeltsOutput;
  log : list string
}.

Definition on_self (f : MeltsOutput -> MeltsOutput) : ST world unit :=
  modify (fun w => {| self := f (self w); log := log w |}).

(** [logger.debug(msg)]. *)
Definition logger_debug (msg : string) : ST world unit :=
  modify (fun w => {| self := self w; log := log w ++ [msg] |}).

(** [setattr(self, name, v)]. *)
Definition setattr (name : string) (v : pyval) : ST world unit :=
  on_self (fun o => with_attrs (dict_set name v (attrs o)) o).

(** [str(x)] of a title, which is [None] until a table gave one. *)
Definition str_of_title (t : option string) : string :=
  match t with
  | None => "None"
  | Some s => s
  end.

Section Tables.

(** The file system the tables are read from. *)
Variable fs : filesystem.

(** [pd.read_csv(text, sep=" ", skiprows=n)]: the table library's parser,
    which returns a frame or raises. *)
Variable read_csv : string -> nat -> result Pd.DataFrame.

(** [from_melts_cstr] of [pyrolite.ext.alphamelts.parse], applied to one
    cell of a formula column; it is not among the sources. *)
Variable from_melts_cstr : cell -> result cell.

Local Open Scope st_scope.

(** [_set_title]: the first title is kept, a different later one is only
    logged. *)
Definition _set_title (t : string) : ST world unit :=
  t0 <- gets (fun w => title (self w)) ;;
  match t0 with
  | None => on_self (with_title (Some t))
  | Some cur =>
      if String.eqb t cur then ret tt
      else logger_debug ("File with conflicting title found: " +:+ t
                         +:+ "; expected " +:+ cur)
  end.

(** [_get_table_title]: the first line without ["Title: "], stripped. *)
Definition _get_table_title (filepath : string) : ST world string :=
  text <- lift (open_read fs filepath) ;;
  ret (Py.strip (Py.replace "Title: " "" (Py.readline text))).

(** [path.exists] and [path.is_file] in the condition of [read_table] are
    written without call parentheses: the condition tests the two bound
    methods themselves, and a method object is true. *)
Definition bound_method_truth : bool := true.

(** [self.read_table(filepath, skiprows=n)]. *)
Definition read_table (filepath : string) (skiprows : nat) : ST world pyval :=
  if bound_method_truth && bound_method_truth then
    t <- _get_table_title filepath ;;
    _set_title t ;;
    df <- lift (result_bind (open_read fs filepath) (fun text => read_csv text skiprows)) ;;
    let df := Pd.dropna_all_columns df in
    k <- gets (fun w => kelvin (self w)) ;;
    df <- (if Pd.has_column "Temperature" df && negb k
           then lift (Pd.isub_column "Temperature" 273.15%float df)
           else ret df) ;;
    df <- (if Pd.has_column "MgO" df && Pd.has_column "FeO" df
           then lift (add_MgNo df)
           else ret df) ;;
    ret (PyDataFrame df)
  else
    logger_debug ("Expected file " +:+ filepath +:+ " does not exist.") ;;
    ret PyNone.

(** [zero_to_nan(table)] on what [read_table] returned; it reads the
    columns of its argument, which [None] does not have. *)
Definition zero_to_nan_value (v : pyval) : ST world Pd.DataFrame :=
  match v with
  | PyDataFrame df => ret (zero_to_nan df)
  | PyNone => raise AttributeError
  end.

(** [_read_solidcomp], [_read_liquidcomp], [_read_bulkcomp] and
    [_read_systemmain] have the same body. *)
Definition _read_comp (filepath : string) (skiprows : nat) : ST world pyval :=
  table <- read_table filepath skiprows ;;
  table <- zero_to_nan_value table ;;
  ret (PyDataFrame table).

Definition _read_solidcomp (filepath : string) : ST world pyval := _read_comp filepath 3.
Definition _read_liquidcomp (filepath : string) : ST world pyval := _read_comp filepath 3.
Definition _read_bulkcomp (filepath : string) : ST world pyval := _read_comp filepath 3.
Definition _read_systemmain (filepath : string) : ST world pyval := _read_comp filepath 3.

Definition structural_columns : list string := ["Pressure"; "Temperature"; "mass"; "V"].

(** The column names that are phase names. *)
Definition phase_columns (table : Pd.DataFrame) : gset string :=
  list_to_set (List.filter (fun i => negb (bool_decide (i ∈ structural_columns)))
                           (dict_keys table)).

(** [_read_phasemass] and [_read_phasevol] have the same body. *)
Definition _read_phase_table (filepath : string) (skiprows : nat) : ST world pyval :=
  table <- read_table filepath skiprows ;;
  table <- zero_to_nan_value table ;;
  on_self (fun o => with_phasenames (phasenames o ∪ phase_columns table) o) ;;
  ret (PyDataFrame table).

Definition _read_phasemass (filepath : string) : ST world pyval := _read_phase_table filepath 3.
Definition _read_phasevol (filepath : string) : ST world pyval := _read_phase_table filepath 3.

(** [_read_trace] is [pass]. *)
Definition _read_trace (filepath : string) : ST world pyval := ret PyNone.

(** One turn of the loop of [_read_phasemain], up to the assignment to
    [self.phases]: the phase name and the table of the block [tab]. *)
Definition phase_block (k : bool) (tab : string) : result (string * Pd.DataFrame) :=
  match Py.re_split_newlines tab with
  | [] => Raise IndexError
  | first :: rest =>
      match Py.split_ws first with
      | [] => Raise IndexError
      | token :: _ =>
          let phase := Py.strip token in
          result_bind (read_csv (Py.join nl rest) 0) (fun table =>
          let table := zero_to_nan table in
          result_bind (if Pd.has_column "formula" table
                       then Pd.apply_column "formula" from_melts_cstr table
                       else Ok table) (fun table =>
          result_bind (if Pd.has_column "Temperature" table && negb k
                       then Pd.isub_column "Temperature" 273.15%float table
                       else Ok table) (fun table =>
          Ok (phase, table))))
      end
  end.

Definition store_phase_block (tab : string) : ST world unit :=
  k <- gets (fun w => kelvin (self w)) ;;
  pt <- lift (phase_block k tab) ;;
  on_self (fun o => with_phases (dict_set (fst pt) (snd pt) (phases o)) o).

(** [_read_phasemain]: it fills [self.phases] and returns nothing. *)
Definition _read_phasemain (filepath : string) : ST world pyval :=
  text <- lift (open_read fs filepath) ;;
  let data := tail (Py.split (nl +:+ nl) text) in
  for_each store_phase_block data ;;
  ret PyNone.

(** The (name, file, loader) triples of the constructor. *)
Definition table_loaders : list (string * string * (string -> ST world pyval)) :=
  [ ("bulkcomp", "Bulk_comp_tbl.txt", _read_bulkcomp);
    ("solidcomp", "Solid_comp_tbl.txt", _read_solidcomp);
    ("liquidcomp", "Liquid_comp_tbl.txt", _read_liquidcomp);
    ("phasemass", "Phase_mass_tbl.txt", _read_phasemass);
    ("phasevol", "Phase_vol_tbl.txt", _read_phasevol);
    ("tracecomp", "Trace_main_tbl.txt", _read_trace);
    ("system", "System_main_tbl.txt", _read_systemmain);
    ("phasemain", "Phase_main_tbl.txt", _read_phasemain) ].

(** The body of the constructor's loop for one triple. *)
Definition load_slot (dir : string) (entry : string * string * (string -> ST world pyval))
  : ST world unit :=
  let '(name, table, load) := entry in
  let tpath := path_join dir table in
  try_except
    (v <- load tpath ;; setattr name v)
    (t <- gets (fun w => title (self w)) ;;
     logger_debug ("Error on table import: " +:+ str_of_title t +:+ " " +:+ tpath) ;;
     setattr name (PyDataFrame Pd.empty)).

(** The object at the start of [__init__]. *)
Definition fresh (k : bool) : MeltsOutput :=
  {| title := None; kelvin := k; phasenames := ∅; majors := ∅; traces := ∅;
     phases := []; attrs := [] |}.

(** [MeltsOutput.__init__(self, directory, kelvin)]. *)
Definition init (directory : string) : ST world unit :=
  for_each (load_slot directory) table_loaders.

(** [MeltsOutput(directory, kelvin=k)] with the log at [l]: the outcome of
    [__init__], the object as it left it, and the log. *)
Definition MeltsOutput_new (directory : string) (k : bool) (l : list string)
  : result unit * world :=
  init directory {| self := fresh k; log := l |}.

(** The [tables] property. *)
Definition tables : gset string :=
  {[ "bulkcomp"; "solidcomp"; "liquidcomp"; "phasemass"; "phasevol"; "tracecomp"; "system" ]}.

End Tables.

(** ** Experiment summaries *)

(** What a caller can pass as [dir]: nothing, a string, a path object (by
    its text [str(p)]) or a list of folders. *)
Inductive dir_arg : Type :=
| DirNone
| DirStr (s : string)
| DirPath (p : string)
| DirList (folders : list string).

(** The value under one title: [{"phases": ..., "output": ...}]. *)
Record summary_entry : Type := {
  entry_phases : gset string;
  entry_output : MeltsOutput
}.

(** A summary: titles (a title is [None] when no table gave one) to entries. *)
Abbreviation summary_dict := (dict (option string) summary_entry).

(** [i[: i.find("_")] if i.find("_") > 0 else i]. *)
Definition reduced_name (i : string) : string :=
  if Py.find "_" i >? 0 then Py.slice_to (Py.find "_" i) i else i.

Definition entry_of (output : MeltsOutput) : summary_entry :=
  {| entry_phases := set_map reduced_name (phasenames output);
     entry_output := output |}.

Section Summary.

Variable fs : filesystem.
Variable read_csv : string -> nat -> result Pd.DataFrame.
Variable from_melts_cstr : cell -> result cell.

(** The order in which [for x in s] and [join] go through a set [s]: the
    language leaves it open, and it changes from run to run. *)
Variable set_iter : gset string -> list string.

Local Open Scope st_scope.

(** [MeltsOutput(t, kelvin=k)] as an expression: the new object, or the
    exception its constructor let through. *)
Definition construct (t : string) (k : bool) : ST (list string) MeltsOutput :=
  fun l =>
    match MeltsOutput_new fs read_csv from_melts_cstr t k l with
    | (Ok _, w) => (Ok (self w), log w)
    | (Raise e, w) => (Raise e, log w)
    end.

(** [[p for p in dir.iterdir() if p.is_dir()]] for the path with text [p]. *)
Definition subdirectories (p : string) : result (list string) :=
  match dir_entries fs p with
  | Some names =>
      Ok (List.filter (fun q => bool_decide (is_Some (dir_entries fs q)))
                      (map (path_join p) names))
  | None =>
      match file_content fs p with
      | Some _ => Raise NotADirectoryError
      | None => Raise FileNotFoundError
      end
  end.

(** The folders to read: the list given, or the subdirectories of
    [Path(dir)]. *)
Definition target_folders (dir : dir_arg) : result (list string) :=
  match dir with
  | DirList folders => Ok folders
  | DirNone => Raise TypeError
  | DirStr s => subdirectories (Pathlib.str (Pathlib.of_str s))
  | DirPath p => subdirectories p
  end.

(** The loop of [get_experiments_summary]; the three assignments of a turn
    leave [summary[output.title]] holding the new entry, in the place of
    an older entry under the same title if there was one. *)
Fixpoint summary_loop (k : bool) (folders : list string) (summary : summary_dict)
  : ST (list string) summary_dict :=
  match folders with
  | [] => ret summary
  | t :: rest =>
      output <- construct t k ;;
      summary_loop k rest (dict_set (title output) (entry_of output) summary)
  end.

(** [get_experiments_summary(dir, kelvin=k)]. *)
Definition get_experiments_summary (dir : dir_arg) (k : bool)
  : ST (list string) summary_dict :=
  folders <- lift (target_folders dir) ;;
  summary_loop k folders [].

(** [len(name)] of a key. *)
Definition key_len (name : option string) : result Z :=
  match name with
  | Some s => Ok (Py.len s)
  | None => Raise TypeError
  end.

(** [max(l)]. *)
Definition py_max (l : list Z) : result Z :=
  match Py.max_of l with
  | Some m => Ok m
  | None => Raise ValueError
  end.

(** [dir / filename]: only a path object has the operator. *)
Definition path_div (dir : dir_arg) : result string :=
  match dir with
  | DirPath p => Ok p
  | _ => Raise TypeError
  end.

(** One line of the report. *)
Definition phaselist_line (mnl : Z) (item : option string * summary_entry) : result string :=
  match fst item with
  | Some name =>
      Ok (name +:+ Py.spaces (mnl - Py.len name + 2)
               +:+ Py.join ", " (set_iter (entry_phases (snd item))))
  | None => Raise TypeError
  end.

(** [write_summary_phaselist(dir, summary, filename)]: the file system
    after the report was written. *)
Definition write_summary_phaselist (dir : dir_arg) (summary : option summary_dict)
    (filename : string) : ST (list string) filesystem :=
  summary <- match summary with
             | None => get_experiments_summary dir false
             | Some s => ret s
             end ;;
  mnl <- lift (result_bind (result_mapM key_len (dict_keys summary)) py_max) ;;
  folder <- lift (path_div dir) ;;
  opened <- lift (open_write fs (path_join folder filename) "") ;;
  lines <- lift (result_mapM (phaselist_line mnl) summary) ;;
  lift (open_write opened (path_join folder filename) (Py.join nl lines)).

End Summary.

(** ** Names used by the statements *)

(** The name up to its first underscore; all of it when it has none. *)
Fixpoint before_underscore (s : string) : string :=
  match s with
  | EmptyString => EmptyString
  | String c s' => if Ascii.eqb "_" c then EmptyString else String c (before_underscore s')
  end.

Definition starts_with_underscore (s : string) : bool :=
  match s with
  | String c _ => Ascii.eqb "_" c
  | EmptyString => false
  end.

Fixpoint contains_underscore (s : string) : bool :=
  match s with
  | EmptyString => false
  | String c s' => Ascii.eqb "_" c || contains_underscore s'
  end.

(** The first whitespace-delimited token of the first line of a block. *)
Definition first_token (tab : string) : option string :=
  match Py.re_split_newlines tab with
  | first :: _ => head (Py.split_ws first)
  | [] => None
  end.


Definition is_ok {A : Type} (r : result A) : bool :=
  match r with
  | Ok _ => true
  | Raise _ => false
  end.

Definition is_num (c : cell) : bool :=
  match c with
  | Num _ => true
  | Str _ => false
  end.

(** The names of the eight table slots, in the constructor's order. *)
Definition slot_names : list string :=
  ["bulkcomp"; "solidcomp"; "liquidcomp"; "phasemass"; "phasevol"; "tracecomp";
   "system"; "phasemain"].

(** The file of each slot. *)
Definition slot_file (name : string) : string :=
  if String.eqb name "bulkcomp" then "Bulk_comp_tbl.txt"
  else if String.eqb name "solidcomp" then "Solid_comp_tbl.txt"
  else if String.eqb name "liquidcomp" then "Liquid_comp_tbl.txt"
  else if String.eqb name "phasemass" then "Phase_mass_tbl.txt"
  else if String.eqb name "phasevol" then "Phase_vol_tbl.txt"
  else if String.eqb name "tracecomp" then "Trace_main_tbl.txt"
  else if String.eqb name "system" then "System_main_tbl.txt"
  else "Phase_main_tbl.txt".

(** The slots whose loader goes through [read_table]. *)
Definition read_table_slots : list string :=
  ["bulkcomp"; "solidcomp"; "liquidcomp"; "phasemass"; "phasevol"; "system"].

(** ** Sample runs

    A small stand-in for the table parser (space-separated cells, unsigned
    integers as numbers, an empty cell as NaN, anything else as text) and a
    few experiment folders, on which the definitions above are run. *)

Module Sample.

Definition digit (c : ascii) : option Z :=
  let n := Ascii.nat_of_ascii c in
  if (48 <=? n)%nat && (n <=? 57)%nat then Some (Z.of_nat n - 48) else None.

Fixpoint number_go (acc : Z) (s : string) : option Z :=
  match s with
  | EmptyString => Some acc
  | String c s' =>
      match digit c with
      | Some d => number_go (10 * acc + d) s'
      | None => None
      end
  end.

Definition parse_cell (s : string) : cell :=
  match s with
  | EmptyString => Num PrimFloat.nan
  | _ =>
      match number_go 0 s with
      | Some n => Num (PrimFloat.of_uint63 (Uint63.of_Z n))
      | None => Str s
      end
  end.

Definition frame_of (names : list string) (rows : list (list string)) : Pd.DataFrame :=
  imap (fun j name => (name, map (fun row => parse_cell (nth j row EmptyString)) rows)) names.

Definition read_csv (text : string) (skiprows : nat) : result Pd.DataFrame :=
  match drop skiprows (Py.split nl text) with
  | [] => Raise ParserError
  | header :: rows =>
      if String.eqb header EmptyString then Raise ParserError
      else Ok (frame_of (Py.split " " header)
                        (map (Py.split " ")
                             (List.filter (fun r => negb (String.eqb r EmptyString)) rows)))
  end.

(** Formula cells are left as they are. *)
Definition from_melts_cstr (c : cell) : result cell := Ok c.

Fixpoint lookup_path {A : Type} (table : list (string * A)) (p : string) : option A :=
  match table with
  | [] => None
  | (q, a) :: rest => if String.eqb q p then Some a else lookup_path rest p
  end.

Definition fs_of (files : list (string * string)) (dirs : list (string * list string))
  : filesystem :=
  {| file_content := lookup_path files; dir_entries := lookup_path dirs |}.

Definition lines (l : list string) : string := Py.join nl l +:+ nl.

Definition bulk_text (run : string) : string :=
  lines [ "Title: " +:+ run; ""; "Bulk composition:";
          "Pressure Temperature MgO FeO SiO2";
          "1000 1500 10 8 50";
          "1000 1400 9 7 51" ].

Definition liquid_text (run : string) : string :=
  lines [ "Title: " +:+ run; ""; "Liquid composition:";
          "Pressure Temperature MgO SiO2";
          "1000 1500 10 50" ].

Definition phase_mass_text (run : string) : string :=
  lines [ "Title: " +:+ run; ""; "Phase masses:";
          "Pressure Temperature mass olivine_0 clinopyroxene_0 clinopyroxene_1 _1";
          "1000 1500 100 5 3 0 1" ].

Definition phase_main_text (run : string) : string :=
  Py.join nl
    [ "Title: " +:+ run; "";
      "olivine_0 thermodynamic data:";
      "Pressure Temperature mass formula";
      "1000 1500 5 Mg2SiO4";
      "1000 1400 6 Mg2SiO4"; "";
      "clinopyroxene_0 thermodynamic data:";
      "Pressure Temperature mass";
      "1000 1400 3" ].

Definition olivine_block : string :=
  Py.join nl [ "olivine_0 thermodynamic data:";
               "Pressure Temperature mass";
               "1000 1500 5" ].

(** What [olivine_block] parses to. *)
Definition olivine_table : Pd.DataFrame :=
  [ ("Pressure", [Num 1000%float]);
    ("Temperature", [Num 1500%float]);
    ("mass", [Num 5%float]) ].

(** A phase table cut short after the blank line that ends its first
    block. *)
Definition truncated_phase_main_text (run : string) : string :=
  lines [ "Title: " +:+ run; ""; olivine_block; "" ].

(** An empty file system. *)
Definition no_files : filesystem := fs_of [] [].

(** [runs] holds three experiments; [a] and [b] carry the same title. *)
Definition disk : filesystem :=
  fs_of
    [ ("runs/a/Bulk_comp_tbl.txt", bulk_text "Run 1");
      ("runs/a/Liquid_comp_tbl.txt", liquid_text "Run 1");
      ("runs/a/Phase_mass_tbl.txt", phase_mass_text "Run 1");
      ("runs/a/Trace_main_tbl.txt", lines ["Title: Run 1"]);
      ("runs/a/Phase_main_tbl.txt", phase_main_text "Run 1");
      ("runs/b/Bulk_comp_tbl.txt", bulk_text "Run 1");
      ("runs/c/Bulk_comp_tbl.txt", bulk_text "Run 3");
      ("runs/c/Phase_main_tbl.txt", truncated_phase_main_text "Run 3") ]
    [ ("runs", ["a"; "b"; "c"; "notes.txt"]);
      ("runs/a", ["Bulk_comp_tbl.txt"; "Liquid_comp_tbl.txt"; "Phase_mass_tbl.txt";
                  "Trace_main_tbl.txt"; "Phase_main_tbl.txt"]);
      ("runs/b", ["Bulk_comp_tbl.txt"]);
      ("runs/c", ["Bulk_comp_tbl.txt"; "Phase_main_tbl.txt"]) ].

(** What the bulk and liquid tables of a run parse to. *)
Definition bulk_table : Pd.DataFrame :=
  Eval vm_compute in
    match read_csv (bulk_text "Run 1") 3 with
    | Ok df => df
    | Raise _ => []
    end.

Definition liquid_table : Pd.DataFrame :=
  Eval vm_compute in
    match read_csv (liquid_text "Run 1") 3 with
    | Ok df => df
    | Raise _ => []
    end.

Definition new (fs : filesystem) (directory : string) (k : bool) : result unit * world :=
  MeltsOutput_new fs read_csv from_melts_cstr directory k [].

Definition start (k : bool) : world := {| self := fresh k; log := [] |}.

End Sample.


(** ** Definitions used by the proofs *)

(** [m] ends, normally or not, with [proj] of the object as it found it. *)
Definition keeps {X A : Type} (proj : MeltsOutput -> X) (m : ST world A) : Prop :=
  forall w, proj (self (snd (m w))) = proj (self w).

(** What a slot is assigned: the value the loader returned or, if the
    loader raised, an empty table. *)
Definition slot_value (r : result pyval) : pyval :=
  match r with
  | Ok v => v
  | Raise _ => PyDataFrame Pd.empty
  end.

(** The debug message of the constructor's [except] branch. *)
Definition import_error (t : option string) (tpath : string) : string :=
  "Error on table import: " +:+ str_of_title t +:+ " " +:+ tpath.

(** The state after [setattr(self, name, v)]. *)
Definition slot_assigned (name : string) (v : pyval) (w : world) : world :=
  {| self := with_attrs (dict_set name v (attrs (self w))) (self w); log := log w |}.

(** The state after the [try] statement of the constructor, from the
    outcome of the loader. *)
Definition after_load (name tpath : string) (rw : result pyval * world) : world :=
  match rw with
  | (Ok v, w1) => slot_assigned name v w1
  | (Raise _, w1) =>
      slot_assigned name (PyDataFrame Pd.empty)
        {| self := self w1; log := log w1 ++ [import_error (title (self w1)) tpath] |}
  end.

(** The state after one turn of the constructor's loop. *)
Definition after_slot (dir : string) (entry : string * string * (string -> ST world pyval))
    (w : world) : world :=
  after_load entry.1.1 (path_join dir entry.1.2) (entry.2 (path_join dir entry.1.2) w).

(** The values the slots receive, in order. *)
Fixpoint slot_values (dir : string)
    (entries : list (string * string * (string -> ST world pyval))) (w : world)
  : list (string * pyval) :=
  match entries with
  | [] => []
  | e :: rest =>
      (e.1.1, slot_value (fst (e.2 (path_join dir e.1.2) w)))
        :: slot_values dir rest (after_slot dir e w)
  end.

(** [o] is the object some call [MeltsOutput(t, kelvin=k)] returned. *)
Definition constructed (fs : filesystem) (read_csv : string -> nat -> result Pd.DataFrame)
    (from_melts_cstr : cell -> result cell) (k : bool) (t : string) (o : MeltsOutput) : Prop :=
  exists l w, MeltsOutput_new fs read_csv from_melts_cstr t k l = (Ok tt, w) /\ self w = o.

(** The summary after a run of experiments. *)
Definition summarised (outputs : list MeltsOutput) (s : summary_dict) : summary_dict :=
  dict_update (map (fun o => (title o, entry_of o)) outputs) s.

(** No character of [s] is whitespace. *)
Fixpoint all_nonspace (s : string) : bool :=
  match s with
  | EmptyString => true
  | String c s' => negb (Py.isspace c) && all_nonspace s'
  end.

(** [cell - x] where it does not raise. *)
Definition cell_minus (x : float) (c : cell) : cell :=
  match c with
  | Num f => Num (PrimFloat.sub f x)
  | Str s => Str s
  end.

(** The steps of [read_table] after parsing, on the parsed frame. *)
Definition finish_table (k : bool) (parsed : Pd.DataFrame) : result Pd.DataFrame :=
  let df := Pd.dropna_all_columns parsed in
  result_bind (if Pd.has_column "Temperature" df && negb k
               then Pd.isub_column "Temperature" 273.15%float df
               else Ok df) (fun df =>
  if Pd.has_column "MgO" df && Pd.has_column "FeO" df then add_MgNo df else Ok df).

(** The title [_get_table_title] reads off the text of a file. *)
Definition title_line (text : string) : string :=
  Py.strip (Py.replace "Title: " "" (Py.readline text)).

(** The title after a file offered [found]: a title already set stays. *)
Definition note_title (old found : option string) : option string :=
  match old with
  | Some cur => Some cur
  | None => found
  end.

(** The debug message of [_set_title] for a title that differs. *)
Definition title_conflict (t cur : string) : string :=
  "File with conflicting title found: " +:+ t +:+ "; expected " +:+ cur.

(** The phase names a slot's value contributes. *)
Definition phase_columns_of (v : option pyval) : gset string :=
  match v with
  | Some (PyDataFrame df) => phase_columns df
  | _ => ∅
  end.

(** A line of the report: the title, spaces up to [mnl + 2] characters, and
    the phases joined in the order [order] goes through them. *)
Definition report_line (order : gset string -> list string) (mnl : Z) (name : string)
    (e : summary_entry) : string :=
  name +:+ Py.spaces (mnl - Py.len name + 2)
       +:+ Py.join ", " (order (entry_phases e)).

(** A summary whose keys are all strings, from its titled entries. *)
Definition titled (items : list (string * summary_entry)) : summary_dict :=
  map (fun te => (Some te.1, te.2)) items.

(** * Properties *)

(** ** Dictionaries *)

Section DictFacts.
Context {K V : Type} `{EqDecision K}.
Implicit Types (k : K) (v : V) (d : dict K V).

Lemma dict_get_set_eq k v d : dict_get k (dict_set k v d) = Some v.
Proof.
  induction d as [|[k' v'] d IH]; simpl.
  - by rewrite decide_True.
  - destruct (decide (k' = k)) as [->|Hne]; simpl.
    + by rewrite decide_True.
    + by rewrite decide_False.
Qed.

Lemma dict_get_set_ne k k' v d : k <> k' -> dict_get k' (dict_set k v d) = dict_get k' d.
Proof.
  intros Hne. induction d as [|[k0 v0] d IH]; simpl.
  - by rewrite decide_False.
  - destruct (decide (k0 = k)) as [->|Hne0]; simpl.
    + by rewrite !decide_False.
    + destruct (decide (k0 = k')); [done|apply IH].
Qed.

Lemma dict_keys_set_in k v d : k ∈ dict_keys d -> dict_keys (dict_set k v d) = dict_keys d.
Proof.
  unfold dict_keys. induction d as [|[k0 v0] d IH]; simpl; intros Hin.
  - by apply elem_of_nil in Hin.
  - destruct (decide (k0 = k)) as [->|Hne]; simpl; [done|].
    f_equal. apply IH. apply elem_of_cons in Hin as [->|Hin]; [done|exact Hin].
Qed.

Lemma dict_keys_set_notin k v d :
  k ∉ dict_keys d -> dict_keys (dict_set k v d) = dict_keys d ++ [k].
Proof.
  unfold dict_keys. induction d as [|[k0 v0] d IH]; simpl; intros Hnin; [done|].
  apply not_elem_of_cons in Hnin as [Hne Hnin].
  rewrite decide_False by done. simpl. f_equal. by apply IH.
Qed.

Lemma NoDup_dict_keys_set k v d : NoDup (dict_keys d) -> NoDup (dict_keys (dict_set k v d)).
Proof.
  intros Hnd. destruct (decide (k ∈ dict_keys d)) as [Hin|Hnin].
  - by rewrite dict_keys_set_in.
  - rewrite dict_keys_set_notin by done.
    apply NoDup_app. split; [done|]. split; [|apply NoDup_singleton].
    intros x Hx Hx'. apply list_elem_of_singleton in Hx'. by subst.
Qed.

Lemma elem_of_dict_keys_set k k' v d :
  k' ∈ dict_keys (dict_set k v d) <-> k' = k \/ k' ∈ dict_keys d.
Proof.
  destruct (decide (k ∈ dict_keys d)) as [Hin|Hnin].
  - rewrite dict_keys_set_in by done. split; [by right|]. by intros [->|?].
  - rewrite dict_keys_set_notin by done. rewrite elem_of_app, list_elem_of_singleton. tauto.
Qed.

Lemma dict_get_Some_keys k v d : dict_get k d = Some v -> k ∈ dict_keys d.
Proof.
  unfold dict_keys. induction d as [|[k0 v0] d IH]; simpl; [done|].
  destruct (decide (k0 = k)) as [->|Hne]; intros Hget.
  - apply elem_of_cons. by left.
  - apply elem_of_cons. right. by apply IH.
Qed.

Lemma dict_keys_get k d : k ∈ dict_keys d -> exists v, dict_get k d = Some v.
Proof.
  unfold dict_keys. induction d as [|[k0 v0] d IH]; simpl; intros Hin.
  - by apply elem_of_nil in Hin.
  - destruct (decide (k0 = k)) as [->|Hne]; [by eexists|].
    apply IH. apply elem_of_cons in Hin as [->|Hin]; [done|exact Hin].
Qed.

Lemma dict_has_true k d : dict_has k d = true -> exists v, dict_get k d = Some v.
Proof. unfold dict_has. intros Hb. apply bool_decide_eq_true in Hb. by apply dict_keys_get. Qed.

Lemma dict_has_get k d : dict_has k d = bool_decide (is_Some (dict_get k d)).
Proof.
  unfold dict_has. apply bool_decide_ext. split.
  - intros Hin. destruct (dict_keys_get _ _ Hin) as [v Hv]. by exists v.
  - intros [v Hv]. by eapply dict_get_Some_keys.
Qed.

Lemma dict_has_set_ne k k' v d : k <> k' -> dict_has k' (dict_set k v d) = dict_has k' d.
Proof. intros Hne. by rewrite !dict_has_get, dict_get_set_ne. Qed.

(** Filtering a dictionary keeps the entry of a key, or drops it. *)
Lemma dict_get_filter (P : K * V -> bool) k v d :
  NoDup (dict_keys d) ->
  dict_get k d = Some v ->
  dict_get k (List.filter P d) = if P (k, v) then Some v else None.
Proof.
  unfold dict_keys. induction d as [|[k0 v0] d IH]; simpl; [done|].
  intros Hnd Hget. apply NoDup_cons in Hnd as [Hnin Hnd].
  destruct (decide (k0 = k)) as [->|Hne].
  - injection Hget as ->. destruct (P (k, v)) eqn:HP; simpl.
    + by rewrite decide_True.
    + clear IH. induction d as [|[k1 v1] d IH]; simpl; [done|].
      simpl in Hnin. apply not_elem_of_cons in Hnin as [Hne Hnin].
      apply NoDup_cons in Hnd as [_ Hnd].
      destruct (P (k1, v1)); simpl; [rewrite decide_False by done|]; by apply IH.
  - destruct (P (k0, v0)); simpl; [rewrite decide_False by done|]; by apply IH.
Qed.

Lemma dict_get_filter_None (P : K * V -> bool) k d :
  dict_get k d = None -> dict_get k (List.filter P d) = None.
Proof.
  induction d as [|[k0 v0] d IH]; simpl; [done|].
  destruct (decide (k0 = k)) as [->|Hne]; [done|]. intros Hget.
  destruct (P (k0, v0)); simpl; [rewrite decide_False by done|]; by apply IH.
Qed.

Lemma dict_update_snoc kvs k v d :
  dict_update (kvs ++ [(k, v)]) d = dict_set k v (dict_update kvs d).
Proof. unfold dict_update. by rewrite fold_left_app. Qed.

Lemma dict_update_keys_fresh kvs d :
  NoDup (dict_keys d ++ map fst kvs) ->
  dict_keys (dict_update kvs d) = dict_keys d ++ map fst kvs.
Proof.
  revert d. induction kvs as [|[k v] kvs IH]; intros d Hnd; simpl.
  - by rewrite app_nil_r.
  - assert (k ∉ dict_keys d) as Hnin.
    { apply NoDup_app in Hnd as (_ & Hdisj & _). intros Hin.
      apply (Hdisj k Hin). simpl. apply elem_of_cons. by left. }
    unfold dict_update in *. simpl. rewrite IH.
    + rewrite dict_keys_set_notin by done. by rewrite <- app_assoc.
    + rewrite dict_keys_set_notin by done. by rewrite <- app_assoc.
Qed.

Lemma dict_update_get_other kvs k v d :
  k ∉ map fst kvs -> dict_get k d = Some v -> dict_get k (dict_update kvs d) = Some v.
Proof.
  unfold dict_update. revert d.
  induction kvs as [|[k1 v1] kvs IH]; intros d Hnin Hget; simpl; [done|].
  simpl in Hnin. apply not_elem_of_cons in Hnin as [Hne Hnin].
  apply IH; [done|]. by rewrite dict_get_set_ne.
Qed.

Lemma dict_update_get_last kvs k v rest d :
  k ∉ map fst rest ->
  dict_get k (dict_update (kvs ++ (k, v) :: rest) d) = Some v.
Proof.
  intros Hnin. unfold dict_update. rewrite fold_left_app. simpl.
  apply dict_update_get_other; [done|]. apply dict_get_set_eq.
Qed.

Lemma dict_update_keys kvs d :
  NoDup (dict_keys d) ->
  NoDup (dict_keys (dict_update kvs d))
  /\ forall k, k ∈ dict_keys (dict_update kvs d) <-> k ∈ dict_keys d \/ k ∈ map fst kvs.
Proof.
  revert d. induction kvs as [|[k v] kvs IH]; intros d Hnd; simpl.
  - split; [done|]. intros k. rewrite elem_of_nil. tauto.
  - destruct (IH (dict_set k v d)) as [Hnd' Hiff]; [by apply NoDup_dict_keys_set|].
    split; [exact Hnd'|]. intros k'. unfold dict_update in *. simpl.
    rewrite Hiff, elem_of_dict_keys_set, elem_of_cons. tauto.
Qed.
End DictFacts.

(** ** Computations that leave a part of the object alone *)

Ltac st_unfold :=
  unfold bind, ret, raise, lift, gets, modify, try_except, on_self, logger_debug, setattr in *.

Section Frames.
Context {X : Type} (proj : MeltsOutput -> X).

Lemma keeps_ret {A : Type} (a : A) : keeps proj (ret a).
Proof. by intros w. Qed.

Lemma keeps_lift {A : Type} (r : result A) : keeps proj (lift r).
Proof. by intros w. Qed.

Lemma keeps_raise {A : Type} (e : exn) : keeps proj (@raise world A e).
Proof. by intros w. Qed.

Lemma keeps_gets {A : Type} (f : world -> A) : keeps proj (gets f).
Proof. by intros w. Qed.

Lemma keeps_logger_debug (msg : string) : keeps proj (logger_debug msg).
Proof. by intros w. Qed.

Lemma keeps_on_self (f : MeltsOutput -> MeltsOutput) :
  (forall o, proj (f o) = proj o) -> keeps proj (on_self f).
Proof. intros Hf w. simpl. apply Hf. Qed.

Lemma keeps_bind {A B : Type} (m : ST world A) (k : A -> ST world B) :
  keeps proj m -> (forall a, keeps proj (k a)) -> keeps proj (bind m k).
Proof.
  intros Hm Hk w. unfold bind. specialize (Hm w).
  destruct (m w) as [[a|e] w1]; simpl in *; [|done].
  by rewrite Hk.
Qed.

Lemma keeps_try_except {A : Type} (m h : ST world A) :
  keeps proj m -> keeps proj h -> keeps proj (try_except m h).
Proof.
  intros Hm Hh w. unfold try_except. specialize (Hm w).
  destruct (m w) as [[a|e] w1]; simpl in *; [done|].
  by rewrite Hh.
Qed.

Lemma keeps_for_each {A : Type} (body : A -> ST world unit) (l : list A) :
  (forall a, keeps proj (body a)) -> keeps proj (for_each body l).
Proof.
  intros Hbody. induction l as [|a l IH]; simpl.
  - apply keeps_ret.
  - apply keeps_bind; [apply Hbody|]. intros _. exact IH.
Qed.
End Frames.

Lemma bind_Ok_inv {S A B : Type} (m : ST S A) (k : A -> ST S B) s b s' :
  bind m k s = (Ok b, s') -> exists a s1, m s = (Ok a, s1) /\ k a s1 = (Ok b, s').
Proof.
  unfold bind. destruct (m s) as [[a|e] s1]; [|done]. intros Hk. by exists a, s1.
Qed.

Ltac keeps_step :=
  first
    [ apply keeps_ret | apply keeps_lift | apply keeps_raise | apply keeps_gets
    | apply keeps_logger_debug
    | apply keeps_on_self; intros; reflexivity
    | apply keeps_for_each; intros
    | apply keeps_try_except
    | apply keeps_bind; [|intros]
    | match goal with |- keeps _ (match ?x with _ => _ end) => destruct x end
    | match goal with |- keeps _ (if ?b then _ else _) => destruct b end ].

Ltac keeps_auto := repeat keeps_step.

Section LoaderFrames.
Variable fs : filesystem.
Variable read_csv : string -> nat -> result Pd.DataFrame.
Variable from_melts_cstr : cell -> result cell.

Lemma read_table_keeps {X : Type} (proj : MeltsOutput -> X) path n :
  (forall t o, proj (with_title t o) = proj o) ->
  keeps proj (read_table fs read_csv path n).
Proof.
  intros Ht. unfold read_table, _get_table_title, _set_title. simpl.
  keeps_auto. apply keeps_on_self. intros. apply Ht.
Qed.

Lemma _read_comp_keeps {X : Type} (proj : MeltsOutput -> X) path n :
  (forall t o, proj (with_title t o) = proj o) ->
  keeps proj (_read_comp fs read_csv path n).
Proof.
  intros Ht. unfold _read_comp, zero_to_nan_value.
  apply keeps_bind; [by apply read_table_keeps|]. intros v. keeps_auto.
Qed.

Lemma _read_phase_table_keeps {X : Type} (proj : MeltsOutput -> X) path n :
  (forall t o, proj (with_title t o) = proj o) ->
  (forall ns o, proj (with_phasenames ns o) = proj o) ->
  keeps proj (_read_phase_table fs read_csv path n).
Proof.
  intros Ht Hn. unfold _read_phase_table, zero_to_nan_value.
  apply keeps_bind; [by apply read_table_keeps|]. intros v.
  apply keeps_bind; [keeps_auto|]. intros table.
  apply keeps_bind; [|intros; keeps_auto].
  apply keeps_on_self. intros. apply Hn.
Qed.

Lemma _read_phasemain_keeps {X : Type} (proj : MeltsOutput -> X) path :
  (forall ps o, proj (with_phases ps o) = proj o) ->
  keeps proj (_read_phasemain fs read_csv from_melts_cstr path).
Proof.
  intros Hp. unfold _read_phasemain, store_phase_block.
  apply keeps_bind; [keeps_auto|]. intros text.
  apply keeps_bind; [|intros; keeps_auto].
  apply keeps_for_each. intros tab.
  apply keeps_bind; [keeps_auto|]. intros k.
  apply keeps_bind; [keeps_auto|]. intros pt.
  apply keeps_on_self. intros. apply Hp.
Qed.

(** Every loader of the constructor leaves the attributes and the
    temperature flag alone. *)
Lemma loaders_keep_attrs name file load :
  (name, file, load) ∈ table_loaders fs read_csv from_melts_cstr ->
  forall path, keeps attrs (load path).
Proof.
  unfold table_loaders. intros Hin path.
  repeat (apply elem_of_cons in Hin as [Heq|Hin]; [injection Heq as -> -> ->|]);
    [..|by apply elem_of_nil in Hin].
  1-3, 7: by apply _read_comp_keeps.
  1-2: by apply _read_phase_table_keeps.
  - apply keeps_ret.
  - by apply _read_phasemain_keeps.
Qed.

Lemma loaders_keep_kelvin name file load :
  (name, file, load) ∈ table_loaders fs read_csv from_melts_cstr ->
  forall path, keeps kelvin (load path).
Proof.
  unfold table_loaders. intros Hin path.
  repeat (apply elem_of_cons in Hin as [Heq|Hin]; [injection Heq as -> -> ->|]);
    [..|by apply elem_of_nil in Hin].
  1-3, 7: by apply _read_comp_keeps.
  1-2: by apply _read_phase_table_keeps.
  - apply keeps_ret.
  - by apply _read_phasemain_keeps.
Qed.

Lemma load_slot_eq dir name file (load : string -> ST world pyval) w :
  load_slot dir (name, file, load) w
  = (Ok tt, after_load name (path_join dir file) (load (path_join dir file) w)).
Proof.
  unfold load_slot, after_load, slot_assigned, import_error. st_unfold.
  by destruct (load (path_join dir file) w) as [[v|e] w1].
Qed.

Lemma for_each_load_slot dir entries w :
  for_each (load_slot dir) entries w
  = (Ok tt, fold_left (fun w e => after_slot dir e w) entries w).
Proof.
  revert w. induction entries as [|[[name file] load] entries IH]; intros w;
    cbn [for_each fold_left]; [done|].
  unfold bind. rewrite load_slot_eq. apply IH.
Qed.

Lemma slot_values_names dir entries w :
  map fst (slot_values dir entries w) = map (fun e => e.1.1) entries.
Proof.
  revert w. induction entries as [|e entries IH]; intros w; simpl; [done|]. by rewrite IH.
Qed.

Lemma slot_values_Forall (P : string -> pyval -> Prop) dir entries w :
  (forall name file load w0,
      (name, file, load) ∈ entries ->
      P name (slot_value (fst (load (path_join dir file) w0)))) ->
  Forall (fun nv => P nv.1 nv.2) (slot_values dir entries w).
Proof.
  revert w. induction entries as [|[[name file] load] entries IH]; intros w HP; simpl.
  - constructor.
  - constructor.
    + simpl. apply HP. apply elem_of_cons. by left.
    + apply IH. intros n f l w0 Hin. apply HP. apply elem_of_cons. by right.
Qed.

Lemma after_slot_attrs dir name file (load : string -> ST world pyval) w :
  keeps attrs (load (path_join dir file)) ->
  attrs (self (after_slot dir (name, file, load) w))
  = dict_set name (slot_value (fst (load (path_join dir file) w))) (attrs (self w)).
Proof.
  intros Hk. unfold after_slot, after_load. simpl. specialize (Hk w).
  destruct (load (path_join dir file) w) as [[v|e] w1]; simpl in *; by rewrite Hk.
Qed.

Lemma fold_after_slot_attrs dir entries w :
  (forall name file load,
      (name, file, load) ∈ entries -> forall path, keeps attrs (load path)) ->
  attrs (self (fold_left (fun w e => after_slot dir e w) entries w))
  = dict_update (slot_values dir entries w) (attrs (self w)).
Proof.
  revert w. induction entries as [|[[name file] load] entries IH]; intros w Hk; simpl; [done|].
  rewrite IH.
  - unfold dict_update. simpl. f_equal. apply after_slot_attrs.
    eapply Hk. apply elem_of_cons. by left.
  - intros n f l Hin. eapply Hk. apply elem_of_cons. right. exact Hin.
Qed.

Lemma after_slot_keeps {X : Type} (proj : MeltsOutput -> X) dir name file
    (load : string -> ST world pyval) w :
  (forall a o, proj (with_attrs a o) = proj o) ->
  keeps proj (load (path_join dir file)) ->
  proj (self (after_slot dir (name, file, load) w)) = proj (self w).
Proof.
  intros Ha Hk. unfold after_slot, after_load. simpl. specialize (Hk w).
  destruct (load (path_join dir file) w) as [[v|e] w1]; simpl in *; by rewrite Ha.
Qed.

Lemma fold_after_slot_keeps {X : Type} (proj : MeltsOutput -> X) dir entries w :
  (forall a o, proj (with_attrs a o) = proj o) ->
  (forall name file load,
      (name, file, load) ∈ entries -> forall path, keeps proj (load path)) ->
  proj (self (fold_left (fun w e => after_slot dir e w) entries w)) = proj (self w).
Proof.
  intros Ha. revert w. induction entries as [|[[name file] load] entries IH]; intros w Hk;
    cbn [fold_left]; [done|].
  rewrite IH.
  - apply after_slot_keeps; [exact Ha|]. eapply Hk. apply elem_of_cons. by left.
  - intros n f l Hin. eapply Hk. apply elem_of_cons. right. exact Hin.
Qed.

End LoaderFrames.

(** ** What the loaders return *)

Section LoaderResults.
Variable fs : filesystem.
Variable read_csv : string -> nat -> result Pd.DataFrame.
Variable from_melts_cstr : cell -> result cell.

(** At a path with no file, [read_table] does not reach its [else]
    branch: reading the title raises, before anything is logged. *)
Lemma read_table_missing path n w :
  file_content fs path = None ->
  read_table fs read_csv path n w = (Raise FileNotFoundError, w).
Proof.
  intros Hnone. unfold read_table, _get_table_title, open_read. st_unfold. simpl.
  by rewrite Hnone.
Qed.

(** What [read_table] returns is a frame, never [None]. *)
Lemma read_table_value path n w v w1 :
  read_table fs read_csv path n w = (Ok v, w1) -> exists df, v = PyDataFrame df.
Proof.
  unfold read_table. simpl. intros Hrun.
  repeat (apply bind_Ok_inv in Hrun as (? & ? & _ & Hrun)).
  unfold ret in Hrun. injection Hrun as <- _. by eexists.
Qed.

Lemma _read_comp_missing path n w :
  file_content fs path = None ->
  _read_comp fs read_csv path n w = (Raise FileNotFoundError, w).
Proof. intros Hnone. unfold _read_comp, bind. by rewrite read_table_missing. Qed.

Lemma _read_comp_value path n w :
  exists df, slot_value (fst (_read_comp fs read_csv path n w)) = PyDataFrame df.
Proof.
  unfold _read_comp, bind.
  destruct (read_table fs read_csv path n w) as [[v|e] w1] eqn:Hrt; [|by eexists].
  destruct (read_table_value _ _ _ _ _ Hrt) as [df ->]. simpl. by eexists.
Qed.

Lemma _read_phase_table_missing path n w :
  file_content fs path = None ->
  _read_phase_table fs read_csv path n w = (Raise FileNotFoundError, w).
Proof. intros Hnone. unfold _read_phase_table, bind. by rewrite read_table_missing. Qed.

Lemma _read_phase_table_value path n w :
  exists df, slot_value (fst (_read_phase_table fs read_csv path n w)) = PyDataFrame df.
Proof.
  unfold _read_phase_table, bind.
  destruct (read_table fs read_csv path n w) as [[v|e] w1] eqn:Hrt; [|by eexists].
  destruct (read_table_value _ _ _ _ _ Hrt) as [df ->]. simpl. by eexists.
Qed.

Lemma _read_phasemain_missing path w :
  file_content fs path = None ->
  _read_phasemain fs read_csv from_melts_cstr path w = (Raise FileNotFoundError, w).
Proof. intros Hnone. unfold _read_phasemain, open_read. st_unfold. by rewrite Hnone. Qed.

Lemma _read_phasemain_value path w :
  let v := slot_value (fst (_read_phasemain fs read_csv from_melts_cstr path w)) in
  v = PyNone \/ v = PyDataFrame Pd.empty.
Proof.
  unfold _read_phasemain, bind. cbv zeta.
  destruct (lift (open_read fs path) w) as [[text|e] w1]; [|by right].
  destruct (for_each _ _ w1) as [[[]|e] w2]; [by left|by right].
Qed.

(** The state of the slots after the constructor's loop. *)
Lemma init_slots dir k l (P : string -> pyval -> Prop) :
  (forall name file load w0,
      (name, file, load) ∈ table_loaders fs read_csv from_melts_cstr ->
      P name (slot_value (fst (load (path_join dir file) w0)))) ->
  exists w,
    MeltsOutput_new fs read_csv from_melts_cstr dir k l = (Ok tt, w)
    /\ dict_keys (attrs (self w)) = slot_names
    /\ forall name, name ∈ slot_names ->
         exists v, dict_get name (attrs (self w)) = Some v /\ P name v.
Proof.
  intros HP. unfold MeltsOutput_new, init. rewrite for_each_load_slot.
  eexists. split; [reflexivity|].
  rewrite fold_after_slot_attrs by apply loaders_keep_attrs.
  set (w0 := {| self := fresh k; log := l |}).
  set (kvs := slot_values dir (table_loaders fs read_csv from_melts_cstr) w0).
  assert (map fst kvs = slot_names) as Hnames by apply slot_values_names.
  pose proof (slot_values_Forall P dir _ w0 HP) as Hall. fold kvs in Hall.
  rewrite Forall_forall in Hall.
  assert (NoDup (map fst kvs)) as Hnd.
  { rewrite Hnames. apply (bool_decide_unpack _). by vm_compute. }
  change (attrs (self w0)) with (@nil (string * pyval)).
  clearbody kvs. clear w0 HP. split.
  - rewrite dict_update_keys_fresh; [exact Hnames|exact Hnd].
  - intros name Hin. rewrite <- Hnames in Hin.
    apply list_elem_of_fmap in Hin as ([n v] & -> & Hin).
    exists v. split; [|exact (Hall (n, v) Hin)].
    apply list_elem_of_split in Hin as (pre & post & ->).
    apply dict_update_get_last.
    rewrite map_app in Hnd. apply NoDup_app in Hnd as (_ & _ & Hnd).
    by apply NoDup_cons in Hnd as [? _].
Qed.

End LoaderResults.

(** ** The constructor and missing files *)

(** [slot_names] and [slot_file] list the triples of the constructor. *)
Lemma table_loaders_slots
    (fs : filesystem) (read_csv : string -> nat -> result Pd.DataFrame)
    (from_melts_cstr : cell -> result cell) :
  map (fun e => (e.1.1, e.1.2)) (table_loaders fs read_csv from_melts_cstr)
  = map (fun name => (name, slot_file name)) slot_names.
Proof. reflexivity. Qed.

Ltac each_loader Hin :=
  unfold table_loaders in Hin;
  repeat (let Heq := fresh "Heq" in
          apply elem_of_cons in Hin as [Heq|Hin]; [injection Heq as -> -> ->|]);
  [..|by apply elem_of_nil in Hin].

Ltac not_in_list H :=
  repeat (apply elem_of_cons in H as [H|H]; [discriminate H|]);
  by apply elem_of_nil in H.

Ltac elem_of_list_tac :=
  repeat first [ apply list_elem_of_here | apply list_elem_of_further ].

(** C3 (the code departs from the claim): at a path where there is no file,
    [read_table] raises [FileNotFoundError] and logs nothing; it neither
    logs the condition nor returns [None]. The condition that guards the
    logging branch tests the methods [path.exists] and [path.is_file]
    themselves, not their results, so it always holds. *)
Theorem read_table_missing_path_raises
    (fs : filesystem) (read_csv : string -> nat -> result Pd.DataFrame)
    (path : string) (skiprows : nat) (w : world) :
  file_content fs path = None ->
  read_table fs read_csv path skiprows w = (Raise FileNotFoundError, w).
Proof. apply read_table_missing. Qed.

Lemma read_table_missing_path_raises_witness :
  read_table Sample.no_files Sample.read_csv "runs/a/Bulk_comp_tbl.txt" 3 (Sample.start true)
  = (Raise FileNotFoundError, Sample.start true).
Proof. apply read_table_missing_path_raises. reflexivity. Defined.

(** C1 as stated fails: with [Trace_main_tbl.txt] missing, the attribute
    [tracecomp] is [None], not an empty table. *)
Lemma tracecomp_of_missing_file_is_None :
  file_content Sample.no_files (path_join "runs/a" (slot_file "tracecomp")) = None
  /\ exists w,
       Sample.new Sample.no_files "runs/a" true = (Ok tt, w)
       /\ dict_get "tracecomp" (attrs (self w)) = Some PyNone
       /\ dict_get "tracecomp" (attrs (self w)) <> Some (PyDataFrame Pd.empty).
Proof.
  split; [reflexivity|]. eexists. split; [vm_compute; reflexivity|].
  split; [reflexivity|discriminate].
Qed.

(** C1 (amended): constructing a [MeltsOutput] never raises, and for each
    of the seven slots other than [tracecomp] whose file does not exist the
    attribute is an empty table; [tracecomp], whose loader is a stub, is
    [None]. *)
Theorem missing_table_file_gives_empty_table
    (fs : filesystem) (read_csv : string -> nat -> result Pd.DataFrame)
    (from_melts_cstr : cell -> result cell)
    (directory : string) (k : bool) (l : list string) (name : string) :
  name ∈ slot_names ->
  name <> "tracecomp" ->
  file_content fs (path_join directory (slot_file name)) = None ->
  exists w,
    MeltsOutput_new fs read_csv from_melts_cstr directory k l = (Ok tt, w)
    /\ dict_get name (attrs (self w)) = Some (PyDataFrame Pd.empty)
    /\ dict_get "tracecomp" (attrs (self w)) = Some PyNone.
Proof.
  intros Hname Hne Hmissing.
  destruct (init_slots fs read_csv from_melts_cstr directory k l
              (fun n v =>
                 (n = "tracecomp" -> v = PyNone)
                 /\ (n <> "tracecomp" ->
                     file_content fs (path_join directory (slot_file n)) = None ->
                     v = PyDataFrame Pd.empty)))
    as (w & Hrun & _ & Hslots).
  - intros n file load w0 Hin. each_loader Hin; (split; [try done|intros Hn Hnone]);
      simpl in Hnone.
    1-3, 7: unfold _read_bulkcomp, _read_solidcomp, _read_liquidcomp, _read_systemmain;
      by rewrite _read_comp_missing.
    1-2: unfold _read_phasemass, _read_phasevol; by rewrite _read_phase_table_missing.
    + done.
    + by rewrite _read_phasemain_missing.
  - exists w. split; [exact Hrun|]. split.
    + destruct (Hslots name Hname) as (v & Hget & _ & Hv). by rewrite Hget, Hv.
    + destruct (Hslots "tracecomp") as (v & Hget & Hv & _); [unfold slot_names; elem_of_list_tac|].
      by rewrite Hget, Hv.
Qed.

Lemma missing_table_file_gives_empty_table_witness :
  exists w,
    Sample.new Sample.disk "runs/b" true = (Ok tt, w)
    /\ dict_get "solidcomp" (attrs (self w)) = Some (PyDataFrame Pd.empty)
    /\ dict_get "tracecomp" (attrs (self w)) = Some PyNone.
Proof.
  apply (missing_table_file_gives_empty_table Sample.disk Sample.read_csv
           Sample.from_melts_cstr "runs/b" true [] "solidcomp").
  - unfold slot_names. elem_of_list_tac.
  - discriminate.
  - reflexivity.
Defined.

(** C2 as stated fails: after a construction in which every loader ran to
    its end, [tracecomp] and [phasemain] hold [None] while [bulkcomp] holds
    a table. *)
Lemma tracecomp_and_phasemain_hold_None :
  exists w,
    Sample.new Sample.disk "runs/a" true = (Ok tt, w)
    /\ dict_get "tracecomp" (attrs (self w)) = Some PyNone
    /\ dict_get "phasemain" (attrs (self w)) = Some PyNone
    /\ exists df, dict_get "bulkcomp" (attrs (self w)) = Some (PyDataFrame df).
Proof.
  eexists. split; [vm_compute; reflexivity|].
  split; [reflexivity|]. split; [reflexivity|]. eexists. reflexivity.
Qed.

(** ** Reduced phase names *)

Ltac names_cbn :=
  cbn [Py.find contains_underscore starts_with_underscore before_underscore Py.take orb].

Lemma find_range (c : ascii) (s : string) : -1 <= Py.find c s.
Proof.
  induction s as [|d s IH]; names_cbn; [lia|].
  destruct (Ascii.eqb c d); [lia|]. destruct (Py.find c s <? 0) eqn:Hneg; lia.
Qed.

Lemma find_absent (s : string) :
  contains_underscore s = false <-> Py.find "_" s = -1.
Proof.
  induction s as [|d s IH]; names_cbn; [done|].
  destruct (Ascii.eqb "_" d); names_cbn; [split; [done|lia]|].
  pose proof (find_range "_" s) as Hge.
  destruct (Py.find "_" s <? 0) eqn:Hneg.
  - apply Z.ltb_lt in Hneg. rewrite IH. split; [done|lia].
  - apply Z.ltb_ge in Hneg. rewrite IH. split; lia.
Qed.

Lemma find_leading (s : string) :
  starts_with_underscore s = true <-> Py.find "_" s = 0.
Proof.
  destruct s as [|d s]; names_cbn; [split; [done|lia]|].
  destruct (Ascii.eqb "_" d); [done|].
  pose proof (find_range "_" s) as Hge.
  destruct (Py.find "_" s <? 0) eqn:Hneg; [|apply Z.ltb_ge in Hneg]; split; (done || lia).
Qed.

Lemma before_underscore_absent (s : string) :
  contains_underscore s = false -> before_underscore s = s.
Proof.
  induction s as [|d s IH]; names_cbn; [done|].
  destruct (Ascii.eqb "_" d); names_cbn; [done|]. intros Hs. by rewrite IH.
Qed.

Lemma slice_to_find (s : string) :
  0 <= Py.find "_" s -> Py.slice_to (Py.find "_" s) s = before_underscore s.
Proof.
  unfold Py.slice_to. induction s as [|d s IH]; names_cbn; [done|].
  destruct (Ascii.eqb "_" d); [done|].
  destruct (Py.find "_" s <? 0) eqn:Hneg; [lia|]. apply Z.ltb_ge in Hneg. intros _.
  replace (Z.to_nat (Py.find "_" s + 1)) with (S (Z.to_nat (Py.find "_" s))) by lia.
  names_cbn. by rewrite IH.
Qed.

(** What the comprehension of [get_experiments_summary] does to a name. *)
Lemma reduced_name_cases (i : string) :
  reduced_name i = if starts_with_underscore i then i else before_underscore i.
Proof.
  unfold reduced_name. pose proof (find_range "_" i) as Hge.
  destruct (starts_with_underscore i) eqn:Hlead.
  - apply find_leading in Hlead. by rewrite Hlead.
  - destruct (Py.find "_" i >? 0) eqn:Hpos.
    + apply slice_to_find. lia.
    + assert (Py.find "_" i <> 0) as Hnz.
      { intros H0. apply find_leading in H0. congruence. }
      symmetry. apply before_underscore_absent, find_absent. lia.
Qed.

(** ** The summary of a list of experiments *)

Section SummaryFacts.
Variable fs : filesystem.
Variable read_csv : string -> nat -> result Pd.DataFrame.
Variable from_melts_cstr : cell -> result cell.

Lemma construct_ok t k l :
  exists o l', construct fs read_csv from_melts_cstr t k l = (Ok o, l') /\ constructed fs read_csv from_melts_cstr k t o.
Proof.
  unfold construct, constructed, MeltsOutput_new, init. rewrite for_each_load_slot.
  eexists _, _. split; [reflexivity|]. exists l. eexists. split; [|reflexivity].
  by rewrite for_each_load_slot.
Qed.

Lemma summary_loop_spec k folders s l :
  exists outputs l',
    summary_loop fs read_csv from_melts_cstr k folders s l = (Ok (summarised outputs s), l')
    /\ Forall2 (constructed fs read_csv from_melts_cstr k) folders outputs.
Proof.
  revert s l. induction folders as [|t folders IH]; intros s l; simpl.
  - exists [], l. split; [reflexivity|constructor].
  - destruct (construct_ok t k l) as (o & l1 & Hc & Ho). unfold bind. rewrite Hc.
    destruct (IH (dict_set (title o) (entry_of o) s) l1) as (outs & l2 & Hloop & Hall).
    exists (o :: outs), l2. split; [exact Hloop|by constructor].
Qed.

Lemma summarised_titles outputs :
  map fst (map (fun o => (title o, entry_of o)) outputs) = map title outputs.
Proof. rewrite map_map. by apply map_ext. Qed.

Lemma summarised_length outputs :
  length (summarised outputs []) = length (remove_dups (map title outputs)).
Proof.
  unfold summarised.
  destruct (dict_update_keys (map (fun o => (title o, entry_of o)) outputs)
              (@nil (option string * summary_entry)) (NoDup_nil_2)) as [Hnd Hiff].
  rewrite <- (length_map fst). apply Permutation_length, NoDup_Permutation.
  - exact Hnd.
  - apply NoDup_remove_dups.
  - intros t. unfold dict_keys in Hiff. rewrite Hiff, elem_of_remove_dups, summarised_titles.
    rewrite elem_of_nil. tauto.
Qed.

(** Every entry of a summary was made from the output it holds. *)
Lemma summarised_entries outputs s :
  (forall t e, dict_get t s = Some e -> e = entry_of (entry_output e)) ->
  forall t e, dict_get t (summarised outputs s) = Some e -> e = entry_of (entry_output e).
Proof.
  unfold summarised, dict_update. revert s.
  induction outputs as [|o outputs IH]; intros s Hs t e; simpl; [apply Hs|].
  apply IH. intros t' e'. destruct (decide (title o = t')) as [<-|Hne].
  - rewrite dict_get_set_eq. by intros [= <-].
  - rewrite dict_get_set_ne by done. apply Hs.
Qed.

Lemma get_experiments_summary_entries dir k l summary l' t e :
  get_experiments_summary fs read_csv from_melts_cstr dir k l = (Ok summary, l') ->
  dict_get t summary = Some e ->
  e = entry_of (entry_output e).
Proof.
  unfold get_experiments_summary. intros Hrun.
  apply bind_Ok_inv in Hrun as (folders & l1 & _ & Hloop).
  destruct (summary_loop_spec k folders [] l1) as (outs & l2 & Hspec & _).
  rewrite Hspec in Hloop. injection Hloop as <- _.
  apply summarised_entries. by intros t0 e0.
Qed.

End SummaryFacts.

(** C7: for a list of experiment folders, [get_experiments_summary] returns
    a mapping with as many entries as there are distinct titles among the
    outputs it constructed, and under each title the entry of the last
    output that has it. *)
Theorem summary_has_one_entry_per_title
    (fs : filesystem) (read_csv : string -> nat -> result Pd.DataFrame)
    (from_melts_cstr : cell -> result cell)
    (folders : list string) (k : bool) (l : list string) :
  exists summary l' outputs,
    get_experiments_summary fs read_csv from_melts_cstr (DirList folders) k l
    = (Ok summary, l')
    /\ Forall2 (constructed fs read_csv from_melts_cstr k) folders outputs
    /\ length summary = length (remove_dups (map title outputs))
    /\ (forall earlier o later,
          outputs = earlier ++ o :: later ->
          title o ∉ map title later ->
          dict_get (title o) summary = Some (entry_of o)).
Proof.
  destruct (summary_loop_spec fs read_csv from_melts_cstr k folders [] l)
    as (outs & l' & Hloop & Hall).
  exists (summarised outs []), l', outs. split; [exact Hloop|]. split; [exact Hall|].
  split; [apply summarised_length|].
  intros earlier o later -> Hlast. unfold summarised. rewrite map_app. simpl.
  apply dict_update_get_last. by rewrite summarised_titles.
Qed.

Lemma summary_has_one_entry_per_title_witness :
  exists summary l' outputs,
    get_experiments_summary Sample.disk Sample.read_csv Sample.from_melts_cstr
      (DirList ["runs/a"; "runs/b"; "runs/c"]) true [] = (Ok summary, l')
    /\ Forall2 (constructed Sample.disk Sample.read_csv Sample.from_melts_cstr true)
         ["runs/a"; "runs/b"; "runs/c"] outputs
    /\ length summary = length (remove_dups (map title outputs))
    /\ (forall earlier o later,
          outputs = earlier ++ o :: later ->
          title o ∉ map title later ->
          dict_get (title o) summary = Some (entry_of o)).
Proof.
  exact (summary_has_one_entry_per_title Sample.disk Sample.read_csv Sample.from_melts_cstr
           ["runs/a"; "runs/b"; "runs/c"] true []).
Defined.

(** C8 as stated fails: the phase name ["_1"], cut at its first
    underscore, is the empty name, but the summary keeps ["_1"] whole. *)
Lemma leading_underscore_is_not_truncated :
  exists summary l' e,
    get_experiments_summary Sample.disk Sample.read_csv Sample.from_melts_cstr
      (DirList ["runs/a"]) true [] = (Ok summary, l')
    /\ dict_get (Some "Run 1") summary = Some e
    /\ "_1" ∈ phasenames (entry_output e)
    /\ before_underscore "_1" = ""
    /\ (before_underscore "_1" ∉ entry_phases e)
    /\ "_1" ∈ entry_phases e.
Proof.
  eexists _, _, _. split; [vm_compute; reflexivity|]. split; [vm_compute; reflexivity|].
  split; [apply (bool_decide_unpack _); by vm_compute|]. split; [reflexivity|].
  split; apply (bool_decide_unpack _); by vm_compute.
Qed.

(** C8 (amended): for every phase name of an experiment, the summary's
    phase set contains the name cut at its first underscore when the name
    does not begin with an underscore, and the name itself when it has no
    underscore or begins with one. *)
Theorem summary_phases_are_reduced_names
    (fs : filesystem) (read_csv : string -> nat -> result Pd.DataFrame)
    (from_melts_cstr : cell -> result cell)
    (dir : dir_arg) (k : bool) (l l' : list string) (summary : summary_dict)
    (t : option string) (e : summary_entry) (i : string) :
  get_experiments_summary fs read_csv from_melts_cstr dir k l = (Ok summary, l') ->
  dict_get t summary = Some e ->
  i ∈ phasenames (entry_output e) ->
  (starts_with_underscore i = false -> before_underscore i ∈ entry_phases e)
  /\ (contains_underscore i = false -> i ∈ entry_phases e)
  /\ (starts_with_underscore i = true -> i ∈ entry_phases e).
Proof.
  intros Hrun Hget Hi.
  rewrite (get_experiments_summary_entries _ _ _ _ _ _ _ _ _ _ Hrun Hget). simpl.
  assert (reduced_name i ∈ (set_map reduced_name (phasenames (entry_output e)) : gset string))
    as Hred by (by apply elem_of_map_2).
  rewrite reduced_name_cases in Hred.
  split; [|split].
  - intros Hlead. by rewrite Hlead in Hred.
  - intros Hnone. destruct (starts_with_underscore i); [done|].
    by rewrite before_underscore_absent in Hred.
  - intros Hlead. by rewrite Hlead in Hred.
Qed.

Lemma summary_phases_are_reduced_names_witness :
  exists summary l' e,
    get_experiments_summary Sample.disk Sample.read_csv Sample.from_melts_cstr
      (DirList ["runs/a"]) true [] = (Ok summary, l')
    /\ dict_get (Some "Run 1") summary = Some e
    /\ "clinopyroxene_1" ∈ phasenames (entry_output e)
    /\ before_underscore "clinopyroxene_1" = "clinopyroxene"
    /\ before_underscore "clinopyroxene_1" ∈ entry_phases e.
Proof.
  eexists _, _, _. split; [vm_compute; reflexivity|]. split; [vm_compute; reflexivity|].
  split; [apply (bool_decide_unpack _); by vm_compute|]. split; [reflexivity|].
  eapply (summary_phases_are_reduced_names Sample.disk Sample.read_csv
            Sample.from_melts_cstr (DirList ["runs/a"]) true [] _ _ (Some "Run 1") _
            "clinopyroxene_1").
  - vm_compute. reflexivity.
  - vm_compute. reflexivity.
  - apply (bool_decide_unpack _). by vm_compute.
  - reflexivity.
Defined.

(** ** Writing the phase list *)

Lemma key_len_all_Some (keys : list (option string)) (lens : list Z) :
  result_mapM key_len keys = Ok lens ->
  Forall is_Some keys /\ length lens = length keys.
Proof.
  revert lens. induction keys as [|[s|] keys IH]; intros lens; simpl.
  - intros [= <-]. by split.
  - destruct (result_mapM key_len keys) as [ls|e]; simpl; [|done].
    intros [= <-]. destruct (IH ls eq_refl) as [Hall Hlen].
    split; [by constructor|]. simpl. by rewrite Hlen.
  - done.
Qed.

Lemma key_len_ok (keys : list (option string)) :
  Forall is_Some keys ->
  exists lens, result_mapM key_len keys = Ok lens /\ length lens = length keys.
Proof.
  induction 1 as [|x keys [s ->] _ (ls & Hls & Hlen)]; simpl.
  - by exists [].
  - rewrite Hls. simpl. eexists. split; [reflexivity|]. simpl. by rewrite Hlen.
Qed.

(** C10: [write_summary_phaselist] raises whenever [dir] is left as [None]
    and a summary is given ([TypeError] from [dir / filename] when the
    summary is non-empty with string keys), raises [ValueError] on an empty
    summary, and returns only if [dir] is a path and the summary it wrote
    is non-empty with string keys. *)
Theorem write_summary_phaselist_needs_path_and_entries
    (fs : filesystem) (read_csv : string -> nat -> result Pd.DataFrame)
    (from_melts_cstr : cell -> result cell) (set_iter : gset string -> list string) :
  (forall s filename l,
      exists e l',
        write_summary_phaselist fs read_csv from_melts_cstr set_iter DirNone (Some s) filename l
        = (Raise e, l'))
  /\ (forall s filename l,
        s <> [] -> Forall is_Some (dict_keys s) ->
        write_summary_phaselist fs read_csv from_melts_cstr set_iter DirNone (Some s) filename l
        = (Raise TypeError, l))
  /\ (forall dir filename l,
        write_summary_phaselist fs read_csv from_melts_cstr set_iter dir (Some []) filename l
        = (Raise ValueError, l))
  /\ (forall dir summary filename l fs' l',
        write_summary_phaselist fs read_csv from_melts_cstr set_iter dir summary filename l
        = (Ok fs', l') ->
        (exists p, dir = DirPath p)
        /\ exists used,
             (match summary with
              | Some s => used = s
              | None =>
                  exists l1,
                    get_experiments_summary fs read_csv from_melts_cstr dir false l
                    = (Ok used, l1)
              end)
             /\ used <> []
             /\ Forall is_Some (dict_keys used)).
Proof.
  split; [|split; [|split]].
  - intros s filename l. unfold write_summary_phaselist. st_unfold.
    destruct (result_bind (result_mapM key_len (dict_keys s)) py_max) as [m|e];
      simpl; by eexists _, _.
  - intros s filename l Hne Hkeys. unfold write_summary_phaselist. st_unfold.
    destruct (key_len_ok _ Hkeys) as (lens & -> & Hlen). simpl.
    destruct lens as [|x lens]; [|done].
    destruct s; [done|]. simpl in Hlen. lia.
  - intros dir filename l. reflexivity.
  - intros dir summary filename l fs' l' Hrun. unfold write_summary_phaselist in Hrun.
    apply bind_Ok_inv in Hrun as (used & l1 & Hused & Hrun).
    apply bind_Ok_inv in Hrun as (mnl & l2 & Hmnl & Hrun).
    apply bind_Ok_inv in Hrun as (folder & l3 & Hdir & _).
    split.
    + destruct dir; try (unfold lift in Hdir; simpl in Hdir; discriminate). by eexists.
    + exists used. split; [|].
      * destruct summary as [s|]; [|by exists l1].
        unfold ret in Hused. by injection Hused as <- _.
      * unfold lift in Hmnl.
        destruct (result_mapM key_len (dict_keys used)) as [lens|e] eqn:Hlens; [|done].
        apply key_len_all_Some in Hlens as [Hall Hlen]. split; [|exact Hall].
        intros ->. simpl in Hlen. destruct lens; [|done]. simpl in Hmnl. discriminate.
Qed.

(** ** Tokens *)

Arguments Py.isspace : simpl never.

Lemma append_nil_l (t : string) : EmptyString +:+ t = t.
Proof. reflexivity. Qed.

Lemma append_cons (c : ascii) (s t : string) : String c s +:+ t = String c (s +:+ t).
Proof. reflexivity. Qed.

Lemma append_nil_r (s : string) : s +:+ EmptyString = s.
Proof. induction s as [|c s IH]; [done|]. by rewrite append_cons, IH. Qed.

Lemma all_nonspace_snoc (s : string) (c : ascii) :
  all_nonspace (Py.snoc s c) = all_nonspace s && negb (Py.isspace c).
Proof.
  unfold Py.snoc. induction s as [|d s IH].
  - rewrite append_nil_l. simpl. by destruct (Py.isspace c).
  - rewrite append_cons. simpl. by rewrite IH, andb_assoc.
Qed.

Lemma split_ws_go_tokens (cur s : string) :
  all_nonspace cur = true ->
  Forall (fun t => all_nonspace t = true) (Py.split_ws_go cur s).
Proof.
  revert cur. induction s as [|c s IH]; intros cur Hcur; simpl.
  - destruct cur; [constructor|]. by repeat constructor.
  - destruct (Py.isspace c) eqn:Hc.
    + destruct cur; [by apply IH|]. constructor; [done|by apply IH].
    + apply IH. by rewrite all_nonspace_snoc, Hcur, Hc.
Qed.

Lemma lstrip_nonspace (s : string) : all_nonspace s = true -> Py.lstrip s = s.
Proof.
  destruct s as [|c s]; simpl; [done|].
  intros Hs. apply andb_true_iff in Hs as [Hc _]. apply negb_true_iff in Hc. by rewrite Hc.
Qed.

Lemma rev_go_rev_go (s a b : string) :
  Py.rev_go a (Py.rev_go b s) = Py.rev_go (s +:+ a) b.
Proof.
  revert a b. induction s as [|c s IH]; intros a b; simpl; [done|].
  by rewrite IH, append_cons.
Qed.

Lemma rev_involutive (s : string) : Py.rev (Py.rev s) = s.
Proof. unfold Py.rev. rewrite rev_go_rev_go. simpl. apply append_nil_r. Qed.

Lemma all_nonspace_rev_go (acc s : string) :
  all_nonspace (Py.rev_go acc s) = all_nonspace acc && all_nonspace s.
Proof.
  revert acc. induction s as [|c s IH]; intros acc; simpl.
  - by rewrite andb_true_r.
  - rewrite IH. simpl. destruct (Py.isspace c), (all_nonspace acc); done.
Qed.

(** Stripping a token of [str.split] changes nothing. *)
Lemma strip_token (s : string) : all_nonspace s = true -> Py.strip s = s.
Proof.
  intros Hs. unfold Py.strip, Py.rstrip. rewrite (lstrip_nonspace s Hs).
  rewrite lstrip_nonspace; [apply rev_involutive|].
  unfold Py.rev. by rewrite all_nonspace_rev_go.
Qed.

(** ** The phase table *)

Section PhaseMain.
Variable fs : filesystem.
Variable read_csv : string -> nat -> result Pd.DataFrame.
Variable from_melts_cstr : cell -> result cell.

(** The name [phase_block] gives a block is its first token. *)
Lemma phase_block_name k tab name table :
  phase_block read_csv from_melts_cstr k tab = Ok (name, table) ->
  first_token tab = Some name.
Proof.
  unfold phase_block, first_token.
  destruct (Py.re_split_newlines tab) as [|first rest]; [done|].
  destruct (Py.split_ws first) as [|token more] eqn:Htok; [done|].
  assert (all_nonspace token = true) as Hns.
  { pose proof (split_ws_go_tokens EmptyString first eq_refl) as Hall.
    unfold Py.split_ws in Htok. rewrite Htok in Hall. by apply Forall_cons in Hall as [? _]. }
  rewrite (strip_token token Hns).
  destruct (read_csv _ 0) as [t0|]; [|done]. cbn [result_bind].
  destruct (if Pd.has_column "formula" (zero_to_nan t0) then _ else _) as [t1|]; [|done].
  cbn [result_bind].
  destruct (if Pd.has_column "Temperature" t1 && negb k then _ else _) as [t2|]; [|done].
  cbn [result_bind]. by intros [= <- _].
Qed.

Lemma store_phase_block_ok tab nt w :
  phase_block read_csv from_melts_cstr (kelvin (self w)) tab = Ok nt ->
  store_phase_block read_csv from_melts_cstr tab w
  = (Ok tt, {| self := with_phases (dict_set nt.1 nt.2 (phases (self w))) (self w);
               log := log w |}).
Proof. intros Hb. unfold store_phase_block. st_unfold. by rewrite Hb. Qed.

Lemma store_phase_block_raise tab e w :
  phase_block read_csv from_melts_cstr (kelvin (self w)) tab = Raise e ->
  store_phase_block read_csv from_melts_cstr tab w = (Raise e, w).
Proof. intros Hb. unfold store_phase_block. st_unfold. by rewrite Hb. Qed.

(** The loop of [_read_phasemain] over blocks that parse, followed by
    [more]: every block is stored, in order, and the loop goes on. *)
Lemma store_blocks_prefix k blocks parsed more :
  Forall2 (fun b nt => phase_block read_csv from_melts_cstr k b = Ok nt) blocks parsed ->
  forall w,
    kelvin (self w) = k ->
    exists w',
      for_each (store_phase_block read_csv from_melts_cstr) (blocks ++ more) w
      = for_each (store_phase_block read_csv from_melts_cstr) more w'
      /\ phases (self w') = dict_update parsed (phases (self w))
      /\ kelvin (self w') = k
      /\ attrs (self w') = attrs (self w)
      /\ title (self w') = title (self w)
      /\ log w' = log w.
Proof.
  induction 1 as [|b nt blocks parsed Hb _ IH]; intros w Hk.
  - by exists w.
  - cbn [app for_each]. unfold bind at 1.
    rewrite (store_phase_block_ok b nt w) by (by rewrite Hk).
    destruct (IH {| self := with_phases (dict_set nt.1 nt.2 (phases (self w))) (self w);
                    log := log w |} Hk)
      as (w' & Hrun & Hphases & Hk' & Hattrs & Htitle & Hlog).
    exists w'. by repeat split.
Qed.

Lemma _read_phasemain_run path text w :
  file_content fs path = Some text ->
  _read_phasemain fs read_csv from_melts_cstr path w
  = match for_each (store_phase_block read_csv from_melts_cstr)
            (tail (Py.split (nl +:+ nl) text)) w with
    | (Ok _, w') => (Ok PyNone, w')
    | (Raise e, w') => (Raise e, w')
    end.
Proof.
  intros Hfile. unfold _read_phasemain, open_read. st_unfold. rewrite Hfile.
  by destruct (for_each _ _ w) as [[[]|e] w'].
Qed.

(** The constructor reaches the phase table last, with no phase stored
    yet. *)
Lemma before_phasemain dir k l :
  exists w7,
    MeltsOutput_new fs read_csv from_melts_cstr dir k l
    = (Ok tt,
       after_load "phasemain" (path_join dir "Phase_main_tbl.txt")
         (_read_phasemain fs read_csv from_melts_cstr
            (path_join dir "Phase_main_tbl.txt") w7))
    /\ phases (self w7) = []
    /\ kelvin (self w7) = k.
Proof.
  unfold MeltsOutput_new, init. rewrite for_each_load_slot.
  set (w0 := {| self := fresh k; log := l |}).
  change (table_loaders fs read_csv from_melts_cstr)
    with (take 7 (table_loaders fs read_csv from_melts_cstr)
          ++ [("phasemain", "Phase_main_tbl.txt",
               _read_phasemain fs read_csv from_melts_cstr)]).
  rewrite fold_left_app. cbn [fold_left].
  eexists. split; [reflexivity|]. split.
  - rewrite fold_after_slot_keeps; [done|done|].
    intros name file load Hin path. cbn [take table_loaders] in Hin.
    repeat (let Heq := fresh "Heq" in
            apply elem_of_cons in Hin as [Heq|Hin]; [injection Heq as -> -> ->|]);
      [..|by apply elem_of_nil in Hin].
    1-3, 7: by apply _read_comp_keeps.
    1-2: by apply _read_phase_table_keeps.
    apply keeps_ret.
  - rewrite fold_after_slot_keeps; [done|done|].
    intros name file load Hin path. cbn [take table_loaders] in Hin.
    repeat (let Heq := fresh "Heq" in
            apply elem_of_cons in Hin as [Heq|Hin]; [injection Heq as -> -> ->|]);
      [..|by apply elem_of_nil in Hin].
    1-3, 7: by apply _read_comp_keeps.
    1-2: by apply _read_phase_table_keeps.
    apply keeps_ret.
Qed.

Lemma Forall_is_ok_parsed k blocks :
  Forall (fun b => is_ok (phase_block read_csv from_melts_cstr k b) = true) blocks ->
  exists parsed,
    Forall2 (fun b nt => phase_block read_csv from_melts_cstr k b = Ok nt) blocks parsed.
Proof.
  induction 1 as [|b blocks Hb _ (parsed & Hall)]; [by exists []|].
  destruct (phase_block read_csv from_melts_cstr k b) as [nt|] eqn:Hnt; [|done].
  exists (nt :: parsed). by constructor.
Qed.

Lemma parsed_names k blocks parsed :
  Forall2 (fun b nt => phase_block read_csv from_melts_cstr k b = Ok nt) blocks parsed ->
  map first_token blocks = map Some (map fst parsed).
Proof.
  induction 1 as [|b [name table] blocks parsed Hb _ IH]; [done|].
  simpl. by rewrite IH, (phase_block_name _ _ _ _ Hb).
Qed.

(** The loop of [_read_phasemain] runs to its end exactly when every block
    parses. *)
Lemma store_blocks_outcome k blocks w :
  kelvin (self w) = k ->
  is_ok (fst (for_each (store_phase_block read_csv from_melts_cstr) blocks w))
  = forallb (fun tab => is_ok (phase_block read_csv from_melts_cstr k tab)) blocks.
Proof.
  revert w. induction blocks as [|b blocks IH]; intros w Hk; [done|].
  cbn [for_each forallb]. unfold bind at 1.
  destruct (phase_block read_csv from_melts_cstr k b) as [nt|e] eqn:Hb.
  - rewrite (store_phase_block_ok b nt w) by (by rewrite Hk). cbn [is_ok andb].
    by apply IH.
  - by rewrite (store_phase_block_raise b e w) by (by rewrite Hk).
Qed.

(** What the slot [phasemain] receives, from the text of the file. *)
Lemma _read_phasemain_outcome path w :
  slot_value (fst (_read_phasemain fs read_csv from_melts_cstr path w))
  = match file_content fs path with
    | Some text =>
        if forallb (fun tab => is_ok (phase_block read_csv from_melts_cstr
                                        (kelvin (self w)) tab))
                   (tail (Py.split (nl +:+ nl) text))
        then PyNone else PyDataFrame Pd.empty
    | None => PyDataFrame Pd.empty
    end.
Proof.
  destruct (file_content fs path) as [text|] eqn:Hfile.
  - rewrite (_read_phasemain_run path text w Hfile).
    rewrite <- (store_blocks_outcome (kelvin (self w)) _ w eq_refl).
    by destruct (for_each _ _ w) as [[[]|e] w'].
  - by rewrite _read_phasemain_missing.
Qed.

(** [_read_phasemain] has no [return]: what it returns is [None]. *)
Lemma _read_phasemain_returns_None path w v w1 :
  _read_phasemain fs read_csv from_melts_cstr path w = (Ok v, w1) -> v = PyNone.
Proof.
  unfold _read_phasemain, bind.
  destruct (lift (open_read fs path) w) as [[text|e] w0]; [|done].
  destruct (for_each _ _ w0) as [[[]|e] w2]; [|done]. by intros [= <- _].
Qed.

Lemma after_load_get name tpath (rw : result pyval * world) :
  dict_get name (attrs (self (after_load name tpath rw))) = Some (slot_value (fst rw)).
Proof. destruct rw as [[v|e] w1]; simpl; apply dict_get_set_eq. Qed.

End PhaseMain.

(** C2 (amended): a load that raises is answered with one debug message,
    carrying the title and the path, and an empty table under the slot's
    name; a load that returns leaves what it returned there. After
    construction all eight attributes exist: the six [read_table] slots hold
    a table, [tracecomp] holds [None], and [phasemain] holds [None] when
    [Phase_main_tbl.txt] exists and each of its blocks parses, which is
    when [_read_phasemain] returns, and an empty table otherwise. *)
Theorem slots_after_construction
    (fs : filesystem) (read_csv : string -> nat -> result Pd.DataFrame)
    (from_melts_cstr : cell -> result cell)
    (directory : string) (k : bool) (l : list string) :
  (forall name file (load : string -> ST world pyval) w e w1,
      load (path_join directory file) w = (Raise e, w1) ->
      exists w',
        load_slot directory (name, file, load) w = (Ok tt, w')
        /\ log w' = log w1 ++ [import_error (title (self w1)) (path_join directory file)]
        /\ attrs (self w') = dict_set name (PyDataFrame Pd.empty) (attrs (self w1)))
  /\ (forall name file (load : string -> ST world pyval) w v w1,
        load (path_join directory file) w = (Ok v, w1) ->
        exists w',
          load_slot directory (name, file, load) w = (Ok tt, w')
          /\ log w' = log w1
          /\ attrs (self w') = dict_set name v (attrs (self w1)))
  /\ (forall path w v w1,
        _read_phasemain fs read_csv from_melts_cstr path w = (Ok v, w1) -> v = PyNone)
  /\ exists w,
       MeltsOutput_new fs read_csv from_melts_cstr directory k l = (Ok tt, w)
       /\ dict_keys (attrs (self w)) = slot_names
       /\ (forall name, name ∈ read_table_slots ->
             exists df, dict_get name (attrs (self w)) = Some (PyDataFrame df))
       /\ dict_get "tracecomp" (attrs (self w)) = Some PyNone
       /\ dict_get "phasemain" (attrs (self w))
          = Some (match file_content fs (path_join directory "Phase_main_tbl.txt") with
                  | Some text =>
                      if forallb (fun tab =>
                                    is_ok (phase_block read_csv from_melts_cstr k tab))
                                 (tail (Py.split (nl +:+ nl) text))
                      then PyNone
                      else PyDataFrame Pd.empty
                  | None => PyDataFrame Pd.empty
                  end).
Proof.
  split; [|split; [|split]].
  - intros name file load w e w1 Hload. eexists. rewrite load_slot_eq, Hload. simpl.
    split; [reflexivity|]. split; reflexivity.
  - intros name file load w v w1 Hload. eexists. rewrite load_slot_eq, Hload. simpl.
    split; [reflexivity|]. split; reflexivity.
  - apply _read_phasemain_returns_None.
  - destruct (init_slots fs read_csv from_melts_cstr directory k l
                (fun n v =>
                   (n ∈ read_table_slots -> exists df, v = PyDataFrame df)
                   /\ (n = "tracecomp" -> v = PyNone)))
      as (w & Hrun & Hkeys & Hslots).
    + intros n file load w0 Hin. each_loader Hin; (split; [|try done]).
      1-3, 7: intros _; apply _read_comp_value.
      1-2: intros _; apply _read_phase_table_value.
      * intros Hin. exfalso. not_in_list Hin.
      * intros Hin. exfalso. not_in_list Hin.
    + exists w. split; [exact Hrun|]. split; [exact Hkeys|]. split; [|split].
      * intros name Hname. destruct (Hslots name) as (v & Hget & Hv & _).
        { clear -Hname. unfold read_table_slots in Hname. unfold slot_names.
          repeat (apply elem_of_cons in Hname as [->|Hname]; [elem_of_list_tac|]).
          by apply elem_of_nil in Hname. }
        destruct (Hv Hname) as [df ->]. by exists df.
      * destruct (Hslots "tracecomp") as (v & Hget & _ & Hv);
          [unfold slot_names; elem_of_list_tac|]. by rewrite Hget, Hv.
      * destruct (before_phasemain fs read_csv from_melts_cstr directory k l)
          as (w7 & Hrun7 & _ & Hk7).
        rewrite Hrun7 in Hrun. injection Hrun as <-.
        by rewrite after_load_get, _read_phasemain_outcome, Hk7.
Qed.


(** C9: when [_read_phasemain] raises at a block, the blocks before it
    stay in the [phases] mapping, while the attribute [phasemain] becomes
    an empty table. *)
Theorem phases_kept_when_phasemain_raises
    (fs : filesystem) (read_csv : string -> nat -> result Pd.DataFrame)
    (from_melts_cstr : cell -> result cell)
    (directory : string) (k : bool) (l : list string)
    (text header : string) (before : list string) (bad : string) (rest : list string)
    (parsed : list (string * Pd.DataFrame)) (e : exn) :
  file_content fs (path_join directory "Phase_main_tbl.txt") = Some text ->
  Py.split (nl +:+ nl) text = header :: before ++ bad :: rest ->
  Forall2 (fun b nt => phase_block read_csv from_melts_cstr k b = Ok nt) before parsed ->
  phase_block read_csv from_melts_cstr k bad = Raise e ->
  exists w,
    MeltsOutput_new fs read_csv from_melts_cstr directory k l = (Ok tt, w)
    /\ phases (self w) = dict_update parsed []
    /\ (forall nt, nt ∈ parsed -> nt.1 ∈ dict_keys (phases (self w)))
    /\ dict_get "phasemain" (attrs (self w)) = Some (PyDataFrame Pd.empty).
Proof.
  intros Hfile Hsplit Hbefore Hbad.
  destruct (before_phasemain fs read_csv from_melts_cstr directory k l)
    as (w7 & Hrun & Hphases & Hk).
  rewrite (_read_phasemain_run _ _ _ _ _ w7 Hfile), Hsplit in Hrun. cbn [tail] in Hrun.
  destruct (store_blocks_prefix read_csv from_melts_cstr k before parsed (bad :: rest)
              Hbefore w7 Hk) as (w' & Hloop & Hph' & Hk' & _ & _ & _).
  rewrite Hloop in Hrun. cbn [for_each] in Hrun. unfold bind in Hrun.
  rewrite store_phase_block_raise with (e := e) in Hrun by (by rewrite Hk').
  eexists. split; [exact Hrun|]. simpl.
  assert (phases (self w') = dict_update parsed []) as Hfinal by (by rewrite Hph', Hphases).
  split; [exact Hfinal|]. split; [|apply dict_get_set_eq].
  intros nt Hnt. rewrite Hfinal.
  apply (dict_update_keys parsed (@nil (string * Pd.DataFrame)) (NoDup_nil_2)).
  right. apply list_elem_of_fmap. by exists nt.
Qed.

Lemma phases_kept_when_phasemain_raises_witness :
  exists w,
    Sample.new Sample.disk "runs/c" true = (Ok tt, w)
    /\ dict_keys (phases (self w)) = ["olivine_0"]
    /\ dict_get "phasemain" (attrs (self w)) = Some (PyDataFrame Pd.empty).
Proof.
  edestruct (phases_kept_when_phasemain_raises Sample.disk Sample.read_csv
               Sample.from_melts_cstr "runs/c" true []
               (Sample.truncated_phase_main_text "Run 3") "Title: Run 3"
               [Sample.olivine_block] "" [] [("olivine_0", Sample.olivine_table)]
               IndexError)
    as (w & Hrun & Hphases & _ & Hattr).
  - reflexivity.
  - vm_compute. reflexivity.
  - constructor; [vm_compute; reflexivity|constructor].
  - reflexivity.
  - exists w. split; [exact Hrun|]. split; [|exact Hattr]. by rewrite Hphases.
Defined.

(** C5: for a phase table whose text is a header block followed by blocks
    that parse and that carry pairwise distinct names, the constructor
    leaves one entry per block in the [phases] mapping, keyed, in order,
    by the first token of each block's first line; the header block gives
    no entry. *)
Theorem phases_has_one_entry_per_block
    (fs : filesystem) (read_csv : string -> nat -> result Pd.DataFrame)
    (from_melts_cstr : cell -> result cell)
    (directory : string) (k : bool) (l : list string)
    (text header : string) (blocks : list string) :
  file_content fs (path_join directory "Phase_main_tbl.txt") = Some text ->
  Py.split (nl +:+ nl) text = header :: blocks ->
  Forall (fun b => is_ok (phase_block read_csv from_melts_cstr k b) = true) blocks ->
  NoDup (map first_token blocks) ->
  exists w,
    MeltsOutput_new fs read_csv from_melts_cstr directory k l = (Ok tt, w)
    /\ length (phases (self w)) = length blocks
    /\ map Some (dict_keys (phases (self w))) = map first_token blocks.
Proof.
  intros Hfile Hsplit Hok Hnd.
  destruct (Forall_is_ok_parsed read_csv from_melts_cstr k blocks Hok) as (parsed & Hparsed).
  pose proof (parsed_names read_csv from_melts_cstr k blocks parsed Hparsed) as Hnames.
  destruct (before_phasemain fs read_csv from_melts_cstr directory k l)
    as (w7 & Hrun & Hphases & Hk).
  rewrite (_read_phasemain_run _ _ _ _ _ w7 Hfile), Hsplit in Hrun. cbn [tail] in Hrun.
  destruct (store_blocks_prefix read_csv from_melts_cstr k blocks parsed [] Hparsed w7 Hk)
    as (w' & Hloop & Hph' & _).
  rewrite app_nil_r in Hloop. rewrite Hloop in Hrun. cbn [for_each] in Hrun.
  eexists. split; [exact Hrun|]. simpl. rewrite Hph', Hphases.
  assert (dict_keys (dict_update parsed (@nil (string * Pd.DataFrame))) = map fst parsed)
    as Hkeys.
  { rewrite dict_update_keys_fresh; [done|]. simpl.
    rewrite Hnames in Hnd. by apply (NoDup_fmap_1 Some) in Hnd. }
  split.
  - rewrite <- (length_map fst). fold (dict_keys (dict_update parsed [])).
    rewrite Hkeys, length_map. symmetry. by eapply Forall2_length.
  - by rewrite Hkeys, Hnames.
Qed.

Lemma phases_has_one_entry_per_block_witness :
  exists w,
    Sample.new Sample.disk "runs/a" true = (Ok tt, w)
    /\ length (phases (self w)) = 2%nat
    /\ map Some (dict_keys (phases (self w))) = [Some "olivine_0"; Some "clinopyroxene_0"].
Proof.
  edestruct (phases_has_one_entry_per_block Sample.disk Sample.read_csv
               Sample.from_melts_cstr "runs/a" true []
               (Sample.phase_main_text "Run 1") "Title: Run 1"
               (tail (Py.split (nl +:+ nl) (Sample.phase_main_text "Run 1"))))
    as (w & Hrun & Hlen & Hkeys).
  - reflexivity.
  - vm_compute. reflexivity.
  - vm_compute. repeat constructor.
  - apply (bool_decide_unpack _). by vm_compute.
  - exists w. split; [exact Hrun|]. split; [exact Hlen|exact Hkeys].
Defined.

(** ** Temperature and Mg-number columns *)

Lemma mapM_cell_sub (x : float) (col : Pd.column) :
  forallb is_num col = true ->
  result_mapM (Pd.cell_sub x) col = Ok (map (cell_minus x) col).
Proof.
  induction col as [|[f|s] col IH]; simpl; [done| |done].
  intros Hcol. by rewrite IH.
Qed.

Lemma isub_column_ok (name : string) (x : float) (df : Pd.DataFrame) (col : Pd.column) :
  dict_get name df = Some col ->
  forallb is_num col = true ->
  Pd.isub_column name x df = Ok (dict_set name (map (cell_minus x) col) df).
Proof. intros Hget Hnum. unfold Pd.isub_column. by rewrite Hget, mapM_cell_sub. Qed.

Lemma isub_column_other (name other : string) (x : float) (df df' : Pd.DataFrame) :
  name <> other ->
  Pd.isub_column name x df = Ok df' ->
  dict_get other df' = dict_get other df.
Proof.
  intros Hne. unfold Pd.isub_column. destruct (dict_get name df) as [col|]; [|done].
  destruct (result_mapM _ col) as [col'|]; [|done]. simpl. intros [= <-].
  by apply dict_get_set_ne.
Qed.

Lemma MgNo_column_lookup (mgo feo : Pd.column) (i : nat) (a b : float) :
  mgo !! i = Some (Num a) -> feo !! i = Some (Num b) ->
  MgNo_column mgo feo !! i = Some (Num (MgNo a b)).
Proof.
  revert feo i. induction mgo as [|x mgo IH]; intros [|y feo] [|i]; simpl; try done.
  - by intros [= ->] [= ->].
  - apply IH.
Qed.

(** The Mg-number step: it sets the column ["Mg#"] when both oxides are
    there, and does nothing otherwise. *)
Lemma MgNo_step (df : Pd.DataFrame) :
  exists df',
    (if Pd.has_column "MgO" df && Pd.has_column "FeO" df then add_MgNo df else Ok df) = Ok df'
    /\ (forall name, name <> "Mg#" -> dict_get name df' = dict_get name df)
    /\ (forall mgo feo,
          dict_get "MgO" df = Some mgo -> dict_get "FeO" df = Some feo ->
          dict_get "Mg#" df' = Some (MgNo_column mgo feo))
    /\ (Pd.has_column "MgO" df && Pd.has_column "FeO" df = false -> df' = df).
Proof.
  unfold Pd.has_column, add_MgNo. rewrite !dict_has_get.
  destruct (dict_get "MgO" df) as [mgo|] eqn:Hmgo, (dict_get "FeO" df) as [feo|] eqn:Hfeo.
  - rewrite !bool_decide_eq_true_2 by (by eexists). simpl. eexists. split; [reflexivity|].
    split; [|split].
    + intros name Hne. by rewrite dict_get_set_ne.
    + intros ? ? [= <-] [= <-]. apply dict_get_set_eq.
    + done.
  - rewrite (bool_decide_eq_false_2 (is_Some None)) by (by intros [? ?]).
    rewrite andb_false_r. exists df. by repeat split.
  - rewrite (bool_decide_eq_false_2 (is_Some None)) by (by intros [? ?]).
    exists df. by repeat split.
  - rewrite (bool_decide_eq_false_2 (is_Some None)) by (by intros [? ?]).
    exists df. by repeat split.
Qed.



Lemma dict_has_false {K V : Type} `{EqDecision K} (k : K) (d : dict K V) :
  dict_has k d = false <-> dict_get k d = None.
Proof.
  rewrite dict_has_get. destruct (dict_get k d) as [v|].
  - rewrite bool_decide_eq_true_2 by (by eexists). split; done.
  - rewrite bool_decide_eq_false_2 by (by intros [? ?]). split; done.
Qed.

(** The Mg-number column after the steps of [read_table]. *)
Lemma finish_table_MgNo (k : bool) (parsed df : Pd.DataFrame) :
  finish_table k parsed = Ok df ->
  (forall mgo feo,
      dict_get "MgO" df = Some mgo -> dict_get "FeO" df = Some feo ->
      dict_get "Mg#" df = Some (MgNo_column mgo feo))
  /\ (Pd.has_column "MgO" df && Pd.has_column "FeO" df = false ->
      Pd.has_column "Mg#" parsed = false ->
      Pd.has_column "Mg#" df = false).
Proof.
  unfold finish_table. cbv zeta. set (df0 := Pd.dropna_all_columns parsed).
  destruct (if Pd.has_column "Temperature" df0 && negb k then _ else _) as [df1|] eqn:Hstep;
    [|done].
  cbn [result_bind].
  assert (forall name, name <> "Temperature" -> dict_get name df1 = dict_get name df0) as Hsame.
  { intros name Hne. destruct (Pd.has_column "Temperature" df0 && negb k).
    - by apply (isub_column_other "Temperature" name _ _ _) in Hstep.
    - by injection Hstep as <-. }
  destruct (MgNo_step df1) as (df' & -> & Hother & Hset & Hskip). intros [= <-].
  split.
  - intros mgo feo Hmgo Hfeo. rewrite Hother in Hmgo, Hfeo by done. by apply Hset.
  - unfold Pd.has_column. rewrite !dict_has_get. rewrite !Hother by done.
    rewrite <- !dict_has_get. intros Hguard. rewrite (Hskip Hguard).
    rewrite !dict_has_false. rewrite Hsame by done. apply dict_get_filter_None.
Qed.

Arguments Py.strip : simpl never.
Arguments Py.replace : simpl never.
Arguments Py.readline : simpl never.
Arguments Pd.dropna_all_columns : simpl never.
Arguments Pd.has_column : simpl never.
Arguments Pd.isub_column : simpl never.
Arguments Pd.apply_column : simpl never.
Arguments add_MgNo : simpl never.
Arguments zero_to_nan : simpl never.

Section ReadTable.
Variable fs : filesystem.
Variable read_csv : string -> nat -> result Pd.DataFrame.
Variable from_melts_cstr : cell -> result cell.

(** [read_table] on a file that is there and parses: the title is noted,
    and the parsed frame goes through the steps of [finish_table]. *)
Lemma read_table_finish path n w text parsed :
  file_content fs path = Some text ->
  read_csv text n = Ok parsed ->
  exists w1,
    read_table fs read_csv path n w
    = (result_map PyDataFrame (finish_table (kelvin (self w)) parsed), w1).
Proof.
  intros Hfile Hparse. unfold read_table, _get_table_title, _set_title, open_read, finish_table.
  st_unfold. simpl. rewrite Hfile. simpl.
  destruct (title (self w)) as [cur|]; [destruct (String.eqb _ cur)|];
    simpl; rewrite Hparse; simpl.
  all: destruct (Pd.has_column "Temperature" (Pd.dropna_all_columns parsed)
                 && negb (kelvin (self w)));
    [destruct (Pd.isub_column _ _ _) as [df1|]|]; simpl; try (eexists; reflexivity).
  all: match goal with
       | |- context [add_MgNo ?d] =>
           destruct (Pd.has_column "MgO" d && Pd.has_column "FeO" d);
           [destruct (add_MgNo d)|]
       end; simpl; eexists; reflexivity.
Qed.

End ReadTable.




Section PhaseTemperature.
Variable read_csv : string -> nat -> result Pd.DataFrame.
Variable from_melts_cstr : cell -> result cell.


End PhaseTemperature.



Lemma slots_after_construction_witness :
  (exists w',
      load_slot "runs/c/"
        ("solidcomp", "Solid_comp_tbl.txt", _read_solidcomp Sample.disk Sample.read_csv)
        (Sample.start true) = (Ok tt, w')
      /\ log w' = ["Error on table import: None runs/c/Solid_comp_tbl.txt"]
      /\ attrs (self w') = [("solidcomp", PyDataFrame Pd.empty)])
  /\ exists w,
       Sample.new Sample.disk "runs/c/" true = (Ok tt, w)
       /\ dict_keys (attrs (self w)) = slot_names
       /\ dict_get "tracecomp" (attrs (self w)) = Some PyNone
       /\ dict_get "phasemain" (attrs (self w)) = Some (PyDataFrame Pd.empty).
Proof.
  destruct (slots_after_construction Sample.disk Sample.read_csv Sample.from_melts_cstr
              "runs/c/" true [])
    as (Hraise & _ & _ & w & Hrun & Hkeys & _ & Htrace & Hmain).
  split; [|by exists w].
  destruct (Hraise "solidcomp" "Solid_comp_tbl.txt"
              (_read_solidcomp Sample.disk Sample.read_csv)
              (Sample.start true) FileNotFoundError (Sample.start true))
    as (w' & Hslot & Hlog & Hattrs); [reflexivity|].
  exists w'. split; [exact Hslot|]. split; [exact Hlog|exact Hattrs].
Defined.

Lemma write_summary_phaselist_needs_path_and_entries_witness :
  write_summary_phaselist Sample.disk Sample.read_csv Sample.from_melts_cstr elements DirNone
    (Some [(Some "Run 1", entry_of (fresh true))]) "phaselist.txt" []
  = (Raise TypeError, [])
  /\ write_summary_phaselist Sample.disk Sample.read_csv Sample.from_melts_cstr elements
       (DirPath "runs") (Some []) "phaselist.txt" []
     = (Raise ValueError, []).
Proof.
  destruct (write_summary_phaselist_needs_path_and_entries Sample.disk Sample.read_csv
              Sample.from_melts_cstr elements) as (_ & Hnone & Hempty & _).
  split; [|apply Hempty].
  apply Hnone; [discriminate|]. repeat constructor. by eexists.
Defined.

(** ** The definitions on the sample runs *)

Example path_join_as_pathlib :
  path_join "runs/a" "Bulk_comp_tbl.txt" = "runs/a/Bulk_comp_tbl.txt"
  /\ path_join "runs/a/" "Bulk_comp_tbl.txt" = "runs/a/Bulk_comp_tbl.txt"
  /\ path_join "runs//a/./" "Bulk_comp_tbl.txt" = "runs/a/Bulk_comp_tbl.txt"
  /\ path_join "." "Bulk_comp_tbl.txt" = "Bulk_comp_tbl.txt"
  /\ path_join "" "Bulk_comp_tbl.txt" = "Bulk_comp_tbl.txt"
  /\ path_join "/" "Bulk_comp_tbl.txt" = "/Bulk_comp_tbl.txt"
  /\ path_join "//srv/runs" "a" = "//srv/runs/a"
  /\ path_join "///srv/runs" "a" = "/srv/runs/a"
  /\ path_join "runs/../a" "b" = "runs/../a/b"
  /\ path_join "runs" "/tmp/phaselist.txt" = "/tmp/phaselist.txt"
  /\ path_join "runs" "sub/phaselist.txt" = "runs/sub/phaselist.txt"
  /\ path_join "runs" "." = "runs"
  /\ path_join "" "" = ".".
Proof. repeat split; reflexivity. Qed.

Example path_parent_and_name :
  path_parent "runs/phaselist.txt" = "runs"
  /\ path_name "runs/phaselist.txt" = "phaselist.txt"
  /\ path_parent "phaselist.txt" = "."
  /\ path_parent "/phaselist.txt" = "/"
  /\ path_parent "/" = "/"
  /\ path_name "." = "".
Proof. repeat split; reflexivity. Qed.

Example split_on_blank_lines :
  Py.split (nl +:+ nl) ("h" +:+ nl +:+ nl +:+ "a b" +:+ nl +:+ "c" +:+ nl +:+ nl +:+ nl +:+ "d")
  = ["h"; "a b" +:+ nl +:+ "c"; nl +:+ "d"].
Proof. reflexivity. Qed.

Example split_keeps_trailing_empty_block :
  Py.split (nl +:+ nl) ("h" +:+ nl +:+ nl) = ["h"; ""].
Proof. reflexivity. Qed.

Example split_ws_tokens : Py.split_ws "  olivine_0   Mg2SiO4 " = ["olivine_0"; "Mg2SiO4"].
Proof. reflexivity. Qed.

Example split_ws_blank_line : Py.split_ws "   " = [].
Proof. reflexivity. Qed.

Example title_of_first_line :
  Py.strip (Py.replace "Title: " "" ("Title: Run 1 " +:+ nl)) = "Run 1".
Proof. reflexivity. Qed.

Example find_underscore : Py.find "_" "Augite_1" = 6 /\ Py.find "_" "olivine" = -1.
Proof. split; reflexivity. Qed.

Example reduced_Augite :
  reduced_name "Augite_1" = "Augite" /\ reduced_name "olivine" = "olivine"
  /\ reduced_name "_1" = "_1".
Proof. repeat split; reflexivity. Qed.

Example celsius_of_1500_kelvin :
  Pd.at_row "Temperature" 0
    match (Sample.new Sample.disk "runs/a" false).2 with
    | w => match dict_get "bulkcomp" (attrs (self w)) with
           | Some (PyDataFrame df) => df
           | _ => []
           end
    end
  = Some (Num 1226.85%float).
Proof. vm_compute. reflexivity. Qed.

Example title_of_run_a :
  title (self (Sample.new Sample.disk "runs/a" true).2) = Some "Run 1"
  /\ title (self (Sample.new Sample.no_files "runs/a" true).2) = None.
Proof. split; vm_compute; reflexivity. Qed.

Example summary_titles :
  result_map (map fst)
    (get_experiments_summary Sample.disk Sample.read_csv Sample.from_melts_cstr
       (DirPath "runs") true []).1
  = Ok [Some "Run 1"; Some "Run 3"].
Proof. vm_compute. reflexivity. Qed.

Example phaselist_report :
  match (write_summary_phaselist Sample.disk Sample.read_csv Sample.from_melts_cstr elements
           (DirPath "runs") None "phaselist.txt" []).1 with
  | Ok disk' => file_content disk' "runs/phaselist.txt"
  | Raise _ => None
  end
  = Some ("Run 1  " +:+ nl +:+ "Run 3  ").
Proof. vm_compute. reflexivity. Qed.

(** * Further properties of the module *)

(** ** Titles *)

Section Titles.
Variable fs : filesystem.
Variable read_csv : string -> nat -> result Pd.DataFrame.
Variable from_melts_cstr : cell -> result cell.

Lemma _set_title_run t w :
  exists w',
    _set_title t w = (Ok tt, w')
    /\ title (self w') = note_title (title (self w)) (Some t)
    /\ log w'
       = match title (self w) with
         | Some cur => if String.eqb t cur then log w else log w ++ [title_conflict t cur]
         | None => log w
         end
    /\ kelvin (self w') = kelvin (self w)
    /\ phasenames (self w') = phasenames (self w)
    /\ attrs (self w') = attrs (self w).
Proof.
  unfold _set_title. st_unfold. simpl.
  destruct (title (self w)) as [cur|] eqn:Ht; [destruct (String.eqb t cur) eqn:Heq|];
    eexists; (split; [reflexivity|]); simpl; rewrite ?Ht; by repeat split.
Qed.

Lemma _get_table_title_run path w :
  _get_table_title fs path w = (result_map title_line (open_read fs path), w).
Proof.
  unfold _get_table_title, title_line, open_read. st_unfold.
  by destruct (file_content fs path).
Qed.

(** What [read_table] does to the title: a file that is there gives its
    title a chance, whether or not the rest of the read succeeds. *)
Lemma read_table_title path n w :
  title (self (read_table fs read_csv path n w).2)
  = note_title (title (self w)) (title_line <$> file_content fs path).
Proof.
  destruct (file_content fs path) as [text|] eqn:Hfile.
  - unfold read_table. cbn [bound_method_truth andb].
    unfold bind at 1. rewrite _get_table_title_run. unfold open_read. rewrite Hfile.
    cbn [result_map result_bind].
    destruct (_set_title_run (title_line text) w) as (w1 & Hset & Htitle & _).
    unfold bind at 1. rewrite Hset. cbn [fmap option_fmap option_map]. rewrite <- Htitle.
    match goal with
    | |- title (self (?m w1).2) = _ => assert (keeps title m) as Hkeep by keeps_auto
    end.
    apply Hkeep.
  - rewrite read_table_missing by done. simpl. by destruct (title (self w)).
Qed.

Lemma bind_keeps_tail {X A B : Type} (proj : MeltsOutput -> X)
    (m : ST world A) (k : A -> ST world B) w :
  (forall a, keeps proj (k a)) ->
  proj (self (bind m k w).2) = proj (self (m w).2).
Proof.
  intros Hk. unfold bind. destruct (m w) as [[a|e] w1]; [|done]. apply Hk.
Qed.

Lemma _read_comp_title path n w :
  title (self (_read_comp fs read_csv path n w).2)
  = note_title (title (self w)) (title_line <$> file_content fs path).
Proof.
  unfold _read_comp. rewrite bind_keeps_tail; [apply read_table_title|].
  intros v. unfold zero_to_nan_value. keeps_auto.
Qed.

Lemma _read_phase_table_title path n w :
  title (self (_read_phase_table fs read_csv path n w).2)
  = note_title (title (self w)) (title_line <$> file_content fs path).
Proof.
  unfold _read_phase_table. rewrite bind_keeps_tail; [apply read_table_title|].
  intros v. unfold zero_to_nan_value. keeps_auto.
Qed.

Lemma after_slot_proj {X : Type} (proj : MeltsOutput -> X) dir name file
    (load : string -> ST world pyval) w :
  (forall a o, proj (with_attrs a o) = proj o) ->
  proj (self (after_slot dir (name, file, load) w))
  = proj (self (load (path_join dir file) w).2).
Proof.
  intros Ha. unfold after_slot, after_load. cbn [fst snd].
  destruct (load (path_join dir file) w) as [[v|e] w1]; simpl; apply Ha.
Qed.

Lemma MeltsOutput_new_unrolled dir k l :
  MeltsOutput_new fs read_csv from_melts_cstr dir k l
  = (Ok tt,
     fold_left (fun w e => after_slot dir e w) (table_loaders fs read_csv from_melts_cstr)
       {| self := fresh k; log := l |}).
Proof. unfold MeltsOutput_new, init. apply for_each_load_slot. Qed.

End Titles.

Lemma MeltsOutput_new_title
    (fs : filesystem) (read_csv : string -> nat -> result Pd.DataFrame)
    (from_melts_cstr : cell -> result cell)
    (directory : string) (k : bool) (l : list string) :
  title (self (MeltsOutput_new fs read_csv from_melts_cstr directory k l).2)
  = head (omap (fun name =>
                  title_line <$> file_content fs (path_join directory (slot_file name)))
               read_table_slots).
Proof.
  rewrite MeltsOutput_new_unrolled. unfold table_loaders. cbn [fold_left snd].
  rewrite after_slot_proj by done.
  rewrite (_read_phasemain_keeps fs read_csv from_melts_cstr title) by done.
  rewrite after_slot_proj by done. unfold _read_systemmain. rewrite _read_comp_title.
  rewrite after_slot_proj by done. unfold _read_trace. cbn [ret snd].
  rewrite after_slot_proj by done. unfold _read_phasevol. rewrite _read_phase_table_title.
  rewrite after_slot_proj by done. unfold _read_phasemass. rewrite _read_phase_table_title.
  rewrite after_slot_proj by done. unfold _read_liquidcomp. rewrite _read_comp_title.
  rewrite after_slot_proj by done. unfold _read_solidcomp. rewrite _read_comp_title.
  rewrite after_slot_proj by done. unfold _read_bulkcomp. rewrite _read_comp_title.
  unfold read_table_slots. cbn [omap list_omap slot_file String.eqb Ascii.eqb Bool.eqb self title fresh].
  destruct (file_content fs (path_join directory "Bulk_comp_tbl.txt"));
    destruct (file_content fs (path_join directory "Solid_comp_tbl.txt"));
    destruct (file_content fs (path_join directory "Liquid_comp_tbl.txt"));
    destruct (file_content fs (path_join directory "Phase_mass_tbl.txt"));
    destruct (file_content fs (path_join directory "Phase_vol_tbl.txt"));
    destruct (file_content fs (path_join directory "System_main_tbl.txt"));
    reflexivity.
Qed.

(** X1: the title of a constructed object is the title line of the first
    file that exists among the six tables read through [read_table], in
    the constructor's order, whether or not that file then parses; it is
    [None] when none of them exists. *)
Theorem title_is_first_table_title
    (fs : filesystem) (read_csv : string -> nat -> result Pd.DataFrame)
    (from_melts_cstr : cell -> result cell)
    (directory : string) (k : bool) (l : list string) :
  title (self (MeltsOutput_new fs read_csv from_melts_cstr directory k l).2)
  = head (omap (fun name =>
                  title_line <$> file_content fs (path_join directory (slot_file name)))
               read_table_slots).
Proof. apply MeltsOutput_new_title. Qed.


(** X2: a run of [_set_title] calls never raises, keeps the first title
    (the one already set, else the first of the run), and logs one conflict
    message for each title of the run that differs from it, in order. *)
Theorem set_title_keeps_first_title (ts : list string) (w : world) :
  exists w',
    for_each _set_title ts w = (Ok tt, w')
    /\ title (self w') = note_title (title (self w)) (head ts)
    /\ log w'
       = log w
         ++ match note_title (title (self w)) (head ts) with
            | Some cur =>
                map (fun t => title_conflict t cur)
                    (List.filter (fun t => negb (String.eqb t cur)) ts)
            | None => []
            end.
Proof.
  revert w. induction ts as [|t ts IH]; intros w.
  - exists w. split; [reflexivity|]. cbn [head]. split.
    + by destruct (title (self w)).
    + destruct (title (self w)); simpl; by rewrite app_nil_r.
  - destruct (_set_title_run t w) as (w1 & Hset & Htitle & Hlog & _).
    destruct (IH w1) as (w' & Hrun & Htitle' & Hlog').
    exists w'. cbn [for_each head]. unfold bind. rewrite Hset.
    split; [exact Hrun|]. rewrite Htitle in Htitle', Hlog'.
    destruct (title (self w)) as [cur|] eqn:Hold; cbn [note_title] in *.
    + split; [exact Htitle'|]. rewrite Hlog', Hlog. cbn [List.filter].
      destruct (String.eqb t cur); cbn [negb map]; [done|].
      by rewrite <- app_assoc.
    + split; [exact Htitle'|]. rewrite Hlog', Hlog. cbn [List.filter].
      by rewrite String.eqb_refl.
Qed.

Section ConstructorFrame.
Variable fs : filesystem.
Variable read_csv : string -> nat -> result Pd.DataFrame.
Variable from_melts_cstr : cell -> result cell.

Lemma loaders_keep {X : Type} (proj : MeltsOutput -> X) name file load :
  (forall t o, proj (with_title t o) = proj o) ->
  (forall ns o, proj (with_phasenames ns o) = proj o) ->
  (forall ps o, proj (with_phases ps o) = proj o) ->
  (name, file, load) ∈ table_loaders fs read_csv from_melts_cstr ->
  forall path, keeps proj (load path).
Proof.
  intros Ht Hn Hp Hin path. each_loader Hin.
  1-3, 7: by apply _read_comp_keeps.
  1-2: by apply _read_phase_table_keeps.
  - apply keeps_ret.
  - by apply _read_phasemain_keeps.
Qed.

End ConstructorFrame.

(** X3: the constructor keeps the [kelvin] flag it was given and never
    fills [majors] or [traces]; and with no [Phase_main_tbl.txt] in the
    directory it leaves [phases] empty. *)
Theorem constructor_leaves_flag_and_element_sets
    (fs : filesystem) (read_csv : string -> nat -> result Pd.DataFrame)
    (from_melts_cstr : cell -> result cell)
    (directory : string) (k : bool) (l : list string) :
  let o := self (MeltsOutput_new fs read_csv from_melts_cstr directory k l).2 in
  kelvin o = k
  /\ majors o = ∅
  /\ traces o = ∅
  /\ (file_content fs (path_join directory "Phase_main_tbl.txt") = None -> phases o = []).
Proof.
  cbv zeta. split; [|split; [|split]].
  - rewrite MeltsOutput_new_unrolled. cbn [snd].
    rewrite fold_after_slot_keeps; [done|done|].
    intros name file load Hin. eapply loaders_keep; [done|done|done|exact Hin].
  - rewrite MeltsOutput_new_unrolled. cbn [snd].
    rewrite fold_after_slot_keeps; [done|done|].
    intros name file load Hin. eapply loaders_keep; [done|done|done|exact Hin].
  - rewrite MeltsOutput_new_unrolled. cbn [snd].
    rewrite fold_after_slot_keeps; [done|done|].
    intros name file load Hin. eapply loaders_keep; [done|done|done|exact Hin].
  - intros Hmissing.
    destruct (before_phasemain fs read_csv from_melts_cstr directory k l)
      as (w7 & -> & Hphases & _).
    rewrite _read_phasemain_missing by done. exact Hphases.
Qed.

Lemma constructor_leaves_flag_and_element_sets_witness :
  let o := self (Sample.new Sample.disk "runs/b" false).2 in
  kelvin o = false /\ majors o = ∅ /\ traces o = ∅ /\ phases o = [].
Proof.
  destruct (constructor_leaves_flag_and_element_sets Sample.disk Sample.read_csv
              Sample.from_melts_cstr "runs/b" false []) as (Hk & Hm & Ht & Hp).
  cbv zeta. split; [exact Hk|]. split; [exact Hm|]. split; [exact Ht|].
  apply Hp. reflexivity.
Defined.

(** ** Phase names *)

Section PhaseNames.
Variable fs : filesystem.
Variable read_csv : string -> nat -> result Pd.DataFrame.
Variable from_melts_cstr : cell -> result cell.

Lemma phase_columns_not_structural (table : Pd.DataFrame) (name : string) :
  name ∈ phase_columns table -> name ∉ structural_columns.
Proof.
  unfold phase_columns. rewrite elem_of_list_to_set, list_elem_of_In, filter_In.
  intros [_ Hkeep]. apply negb_true_iff, bool_decide_eq_false in Hkeep. exact Hkeep.
Qed.

(** [_read_phasemass] and [_read_phasevol] add the phase columns of the
    table they return, and nothing when they raise. *)
Lemma _read_phase_table_phasenames path n w :
  phasenames (self (_read_phase_table fs read_csv path n w).2)
  = phasenames (self w)
    ∪ phase_columns_of (Some (slot_value (_read_phase_table fs read_csv path n w).1)).
Proof.
  pose proof (read_table_keeps fs read_csv phasenames path n (fun _ _ => eq_refl) w) as Hkeep.
  unfold _read_phase_table, bind.
  destruct (read_table fs read_csv path n w) as [[v|e] w1] eqn:Hrt; simpl in Hkeep.
  - destruct (read_table_value _ _ _ _ _ _ _ Hrt) as [df ->]. simpl. by rewrite Hkeep.
  - simpl. rewrite Hkeep. replace (phase_columns Pd.empty) with (∅ : gset string) by reflexivity.
    by rewrite (right_id_L ∅ (∪)).
Qed.

Lemma after_slot_phase_table dir name file n w :
  let w' := after_slot dir (name, file, fun p => _read_phase_table fs read_csv p n) w in
  phasenames (self w') = phasenames (self w) ∪ phase_columns_of (dict_get name (attrs (self w')))
  /\ attrs (self w')
     = dict_set name (slot_value (_read_phase_table fs read_csv (path_join dir file) n w).1)
         (attrs (self w)).
Proof.
  cbv zeta.
  assert (attrs (self (after_slot dir (name, file, fun p => _read_phase_table fs read_csv p n) w))
          = dict_set name (slot_value (_read_phase_table fs read_csv (path_join dir file) n w).1)
              (attrs (self w))) as Hattrs.
  { apply (after_slot_attrs dir name file (fun p => _read_phase_table fs read_csv p n)).
    by apply _read_phase_table_keeps. }
  split; [|exact Hattrs].
  rewrite Hattrs, dict_get_set_eq, after_slot_proj by done.
  apply _read_phase_table_phasenames.
Qed.

End PhaseNames.

(** X4: after construction the phase names are exactly the columns, other
    than "Pressure", "Temperature", "mass" and "V", of the tables held by
    [phasemass] and [phasevol]; none of those four names is ever a phase
    name. *)
Theorem phasenames_are_phase_table_columns
    (fs : filesystem) (read_csv : string -> nat -> result Pd.DataFrame)
    (from_melts_cstr : cell -> result cell)
    (directory : string) (k : bool) (l : list string) :
  let o := self (MeltsOutput_new fs read_csv from_melts_cstr directory k l).2 in
  phasenames o
  = phase_columns_of (dict_get "phasemass" (attrs o))
    ∪ phase_columns_of (dict_get "phasevol" (attrs o))
  /\ forall name, name ∈ phasenames o -> name ∉ structural_columns.
Proof.
  cbv zeta.
  assert (forall v name, name ∈ phase_columns_of v -> name ∉ structural_columns) as Hstruct.
  { intros [[|df]|] name; simpl; try by rewrite elem_of_empty.
    apply phase_columns_not_structural. }
  rewrite MeltsOutput_new_unrolled. unfold table_loaders. cbn [fold_left snd].
  set (w0 := {| self := fresh k; log := l |}).
  set (w1 := after_slot directory (_, _, _read_bulkcomp fs read_csv) w0).
  set (w2 := after_slot directory (_, _, _read_solidcomp fs read_csv) w1).
  set (w3 := after_slot directory (_, _, _read_liquidcomp fs read_csv) w2).
  set (w4 := after_slot directory (_, _, _read_phasemass fs read_csv) w3).
  set (w5 := after_slot directory (_, _, _read_phasevol fs read_csv) w4).
  set (w6 := after_slot directory (_, _, _read_trace) w5).
  set (w7 := after_slot directory (_, _, _read_systemmain fs read_csv) w6).
  set (w8 := after_slot directory (_, _, _read_phasemain fs read_csv from_melts_cstr) w7).
  assert (phasenames (self w3) = ∅) as H3.
  { unfold w3, w2, w1. rewrite !after_slot_keeps; try done; by apply _read_comp_keeps. }
  assert (phasenames (self w4)
          = phasenames (self w3) ∪ phase_columns_of (dict_get "phasemass" (attrs (self w4))))
    as Hn4
    by exact (proj1 (after_slot_phase_table fs read_csv directory "phasemass"
                       "Phase_mass_tbl.txt" 3 w3)).
  assert (phasenames (self w5)
          = phasenames (self w4) ∪ phase_columns_of (dict_get "phasevol" (attrs (self w5))))
    as Hn5
    by exact (proj1 (after_slot_phase_table fs read_csv directory "phasevol"
                       "Phase_vol_tbl.txt" 3 w4)).
  assert (attrs (self w5)
          = dict_set "phasevol"
              (slot_value (_read_phase_table fs read_csv
                             (path_join directory "Phase_vol_tbl.txt") 3 w4).1)
              (attrs (self w4)))
    as Ha5
    by exact (proj2 (after_slot_phase_table fs read_csv directory "phasevol"
                       "Phase_vol_tbl.txt" 3 w4)).
  assert (phasenames (self w8) = phasenames (self w5)) as H8.
  { unfold w8, w7, w6. rewrite !after_slot_keeps; try done;
      first [by apply _read_comp_keeps | by apply _read_phasemain_keeps]. }
  assert (forall name, name <> "tracecomp" -> name <> "system" -> name <> "phasemain" ->
                       dict_get name (attrs (self w8)) = dict_get name (attrs (self w5))) as Hget.
  { intros name Hn1 Hn2 Hn3. unfold w8, w7, w6.
    rewrite after_slot_attrs by (by apply _read_phasemain_keeps).
    rewrite dict_get_set_ne by done.
    rewrite after_slot_attrs by (by apply _read_comp_keeps).
    rewrite dict_get_set_ne by done.
    rewrite after_slot_attrs by apply keeps_ret.
    by rewrite dict_get_set_ne. }
  assert (phasenames (self w8)
          = phase_columns_of (dict_get "phasemass" (attrs (self w8)))
            ∪ phase_columns_of (dict_get "phasevol" (attrs (self w8)))) as Heq.
  { rewrite H8, !Hget by done. rewrite Hn5, Hn4, H3. rewrite (left_id_L ∅ (∪)).
    f_equal. rewrite Ha5. by rewrite dict_get_set_ne. }
  split; [exact Heq|]. intros name. rewrite Heq, elem_of_union.
  intros [Hin|Hin]; by eapply Hstruct.
Qed.

(** ** Reduced names and summary entries *)

Lemma before_underscore_clean (s : string) :
  contains_underscore (before_underscore s) = false.
Proof.
  induction s as [|c s IH]; names_cbn; [done|].
  destruct (Ascii.eqb "_" c) eqn:Hc; names_cbn; [done|]. by rewrite Hc, IH.
Qed.

Lemma contains_of_starts (s : string) :
  contains_underscore s = false -> starts_with_underscore s = false.
Proof.
  destruct s as [|c s]; names_cbn; [done|]. by destruct (Ascii.eqb "_" c).
Qed.

(** X5: reducing a phase name is idempotent, and the reduced form of a
    name that does not begin with an underscore contains no underscore. *)
Theorem reduced_name_is_stable (i : string) :
  reduced_name (reduced_name i) = reduced_name i
  /\ (starts_with_underscore i = false -> contains_underscore (reduced_name i) = false).
Proof.
  rewrite (reduced_name_cases i). destruct (starts_with_underscore i) eqn:Hlead.
  - split; [|done]. by rewrite reduced_name_cases, Hlead.
  - split; [|intros _; apply before_underscore_clean].
    rewrite reduced_name_cases.
    rewrite (contains_of_starts _ (before_underscore_clean i)).
    apply before_underscore_absent, before_underscore_clean.
Qed.

Lemma reduced_name_is_stable_witness :
  reduced_name (reduced_name "clinopyroxene_1_b") = reduced_name "clinopyroxene_1_b"
  /\ contains_underscore (reduced_name "clinopyroxene_1_b") = false.
Proof.
  destruct (reduced_name_is_stable "clinopyroxene_1_b") as [Hidem Hclean].
  split; [exact Hidem|]. apply Hclean. reflexivity.
Defined.

Section SummaryEntries.
Variable fs : filesystem.
Variable read_csv : string -> nat -> result Pd.DataFrame.
Variable from_melts_cstr : cell -> result cell.

Lemma summarised_invariant (Q : option string -> summary_entry -> Prop) outputs s :
  (forall t e, dict_get t s = Some e -> Q t e) ->
  (forall o, o ∈ outputs -> Q (title o) (entry_of o)) ->
  forall t e, dict_get t (summarised outputs s) = Some e -> Q t e.
Proof.
  unfold summarised, dict_update. revert s.
  induction outputs as [|o outputs IH]; intros s Hs Hout t e; simpl; [apply Hs|].
  apply IH.
  - intros t' e'. destruct (decide (title o = t')) as [<-|Hne].
    + rewrite dict_get_set_eq. intros [= <-]. apply Hout. apply elem_of_cons. by left.
    + rewrite dict_get_set_ne by done. apply Hs.
  - intros o' Hin. apply Hout. apply elem_of_cons. by right.
Qed.

End SummaryEntries.

(** X6: every entry of the summary of a list of folders is filed under the
    title of the output it holds, that output was constructed from one of
    the folders, and its phase set is the reduced phase names of that
    output. *)
Theorem summary_entry_is_filed_under_its_title
    (fs : filesystem) (read_csv : string -> nat -> result Pd.DataFrame)
    (from_melts_cstr : cell -> result cell)
    (folders : list string) (k : bool) (l l' : list string) (summary : summary_dict)
    (t : option string) (e : summary_entry) :
  get_experiments_summary fs read_csv from_melts_cstr (DirList folders) k l
  = (Ok summary, l') ->
  dict_get t summary = Some e ->
  title (entry_output e) = t
  /\ entry_phases e = set_map reduced_name (phasenames (entry_output e))
  /\ exists d, d ∈ folders /\ constructed fs read_csv from_melts_cstr k d (entry_output e).
Proof.
  unfold get_experiments_summary. intros Hrun.
  apply bind_Ok_inv in Hrun as (fl & l1 & Htarget & Hloop).
  unfold lift in Htarget. simpl in Htarget. injection Htarget as <- <-.
  destruct (summary_loop_spec fs read_csv from_melts_cstr k folders [] l)
    as (outs & l2 & Hspec & Hall).
  rewrite Hspec in Hloop. injection Hloop as <- _.
  apply (summarised_invariant
           (fun t e =>
              title (entry_output e) = t
              /\ entry_phases e = set_map reduced_name (phasenames (entry_output e))
              /\ exists d, d ∈ folders
                           /\ constructed fs read_csv from_melts_cstr k d (entry_output e))).
  - by intros t0 e0.
  - intros o Hin. split; [done|]. split; [done|]. simpl.
    apply list_elem_of_lookup in Hin as [i Hi].
    destruct (Forall2_lookup_r _ _ _ _ _ Hall Hi) as (d & Hd & Hcons).
    exists d. split; [by eapply list_elem_of_lookup_2|exact Hcons].
Qed.

Lemma summary_entry_is_filed_under_its_title_witness :
  exists summary l' e,
    get_experiments_summary Sample.disk Sample.read_csv Sample.from_melts_cstr
      (DirList ["runs/a"; "runs/c"]) true [] = (Ok summary, l')
    /\ dict_get (Some "Run 3") summary = Some e
    /\ title (entry_output e) = Some "Run 3".
Proof.
  eexists _, _, _. split; [vm_compute; reflexivity|]. split; [vm_compute; reflexivity|].
  eapply (summary_entry_is_filed_under_its_title Sample.disk Sample.read_csv
            Sample.from_melts_cstr ["runs/a"; "runs/c"] true [] _ _ (Some "Run 3")).
  - vm_compute. reflexivity.
  - vm_compute. reflexivity.
Defined.

(** ** The phase list report *)

Lemma length_append (s t : string) :
  String.length (s +:+ t) = (String.length s + String.length t)%nat.
Proof.
  induction s as [|c s IH]; [done|]. rewrite append_cons. simpl. by rewrite IH.
Qed.

Lemma length_repeat_char (c : ascii) (n : nat) : String.length (Py.repeat_char c n) = n.
Proof. induction n as [|n IH]; simpl; [done|]. by rewrite IH. Qed.

Lemma fold_max_ge (l : list Z) (x : Z) : x <= fold_left Z.max l x.
Proof.
  revert x. induction l as [|y l IH]; intros x; simpl; [lia|].
  specialize (IH (Z.max x y)). lia.
Qed.

Lemma fold_max_bound (l : list Z) (x : Z) : Forall (fun y => y <= fold_left Z.max l x) l.
Proof.
  revert x. induction l as [|y l IH]; intros x; simpl; constructor.
  - pose proof (fold_max_ge l (Z.max x y)). lia.
  - apply IH.
Qed.

(** [max] bounds every element. *)
Lemma max_of_bound (l : list Z) (m : Z) :
  Py.max_of l = Some m -> Forall (fun y => y <= m) l.
Proof.
  destruct l as [|x l]; [done|]. simpl. intros [= <-]. constructor.
  - apply fold_max_ge.
  - apply fold_max_bound.
Qed.

Lemma key_len_titled (items : list (string * summary_entry)) :
  result_mapM key_len (dict_keys (titled items)) = Ok (map (fun te => Py.len te.1) items).
Proof.
  unfold titled, dict_keys. induction items as [|[name e] items IH]; simpl; [done|].
  by rewrite IH.
Qed.

Lemma phaselist_lines_titled (set_iter : gset string -> list string) (mnl : Z)
    (items : list (string * summary_entry)) :
  result_mapM (phaselist_line set_iter mnl) (titled items)
  = Ok (map (fun te => report_line set_iter mnl te.1 te.2) items).
Proof.
  unfold titled. induction items as [|[name e] items IH]; simpl; [done|].
  by rewrite IH.
Qed.

(** Writing a file whose directory exists. *)
Lemma open_write_ok (fs : filesystem) (path text : string) (names : list string) :
  dir_entries fs (path_parent path) = Some names ->
  dir_entries fs path = None ->
  exists fs',
    open_write fs path text = Ok fs'
    /\ file_content fs' path = Some text
    /\ (forall q, q <> path -> file_content fs' q = file_content fs q)
    /\ (exists names', dir_entries fs' (path_parent path) = Some names')
    /\ dir_entries fs' path = None.
Proof.
  intros Hdir Htarget. unfold open_write. rewrite Hdir, Htarget.
  eexists. split; [reflexivity|]. cbn [file_content dir_entries].
  rewrite String.eqb_refl.
  assert (String.eqb path (path_parent path) = false) as Hne.
  { apply String.eqb_neq. intros Heq. rewrite <- Heq in Hdir. congruence. }
  rewrite Hne. cbn [andb]. split; [reflexivity|]. split; [|split; [|exact Htarget]].
  - intros q Hq. apply String.eqb_neq in Hq. by rewrite Hq.
  - rewrite String.eqb_refl.
    destruct (negb (bool_decide (path_name path ∈ names))); cbn [andb]; [by eexists|].
    rewrite Hdir. by eexists.
Qed.

(** X7: with [dir] a path, a target [dir / filename] that is not a
    directory and lies in an existing directory, and a non-empty summary
    whose keys are strings, [write_summary_phaselist] returns; the file then
    holds one line per entry, in the order of the summary, each title padded
    with spaces to the longest title's length plus two before its phases,
    which are joined in the order the set yields them; no other file
    changes. *)
Theorem write_summary_phaselist_writes_padded_lines
    (fs : filesystem) (read_csv : string -> nat -> result Pd.DataFrame)
    (from_melts_cstr : cell -> result cell) (set_iter : gset string -> list string)
    (p filename : string) (names l : list string)
    (items : list (string * summary_entry)) :
  dir_entries fs (path_parent (path_join p filename)) = Some names ->
  dir_entries fs (path_join p filename) = None ->
  items <> [] ->
  exists fs' mnl,
    write_summary_phaselist fs read_csv from_melts_cstr set_iter (DirPath p) (Some (titled items))
      filename l = (Ok fs', l)
    /\ Py.max_of (map (fun te => Py.len te.1) items) = Some mnl
    /\ file_content fs' (path_join p filename)
       = Some (Py.join nl (map (fun te => report_line set_iter mnl te.1 te.2) items))
    /\ (forall name e,
          (name, e) ∈ items ->
          Py.len (name +:+ Py.spaces (mnl - Py.len name + 2)) = mnl + 2)
    /\ (forall q, q <> path_join p filename -> file_content fs' q = file_content fs q).
Proof.
  intros Hdir Htarget Hitems.
  destruct (Py.max_of (map (fun te => Py.len te.1) items)) as [mnl|] eqn:Hmax;
    [|by destruct items].
  destruct (open_write_ok fs (path_join p filename) "" names Hdir Htarget)
    as (opened & Hopen & _ & Hsame & [names' Hdir'] & Htarget').
  destruct (open_write_ok opened (path_join p filename)
              (Py.join nl (map (fun te => report_line set_iter mnl te.1 te.2) items))
              names' Hdir' Htarget')
    as (fs' & Hwrite & Hfile & Hsame' & _).
  exists fs', mnl.
  unfold write_summary_phaselist. st_unfold. rewrite key_len_titled.
  cbn [result_bind]. unfold py_max. rewrite Hmax. cbn [path_div].
  rewrite Hopen, phaselist_lines_titled, Hwrite.
  split; [reflexivity|]. split; [reflexivity|]. split; [exact Hfile|]. split.
  - intros name e Hin. unfold Py.len, Py.spaces.
    rewrite length_append, length_repeat_char.
    apply max_of_bound in Hmax. rewrite Forall_forall in Hmax.
    assert (Py.len name <= mnl) as Hle.
    { apply Hmax. apply (list_elem_of_fmap_2 (fun te => Py.len te.1) _ (name, e) Hin). }
    unfold Py.len in *. lia.
  - intros q Hq. rewrite Hsame' by done. by apply Hsame.
Qed.

Lemma write_summary_phaselist_writes_padded_lines_witness :
  exists fs',
    write_summary_phaselist Sample.disk Sample.read_csv Sample.from_melts_cstr
      (fun X => rev (elements X)) (DirPath "runs")
      (Some [ (Some "Run 1",
               {| entry_phases := {["olivine"; "spinel"]}; entry_output := fresh true |});
              (Some "Run 22", entry_of (fresh true)) ])
      "./phaselist.txt" []
    = (Ok fs', [])
    /\ file_content fs' "runs/phaselist.txt"
       = Some ("Run 1   spinel, olivine" +:+ nl +:+ "Run 22  ")
    /\ file_content fs' "runs/a/Bulk_comp_tbl.txt"
       = file_content Sample.disk "runs/a/Bulk_comp_tbl.txt".
Proof.
  destruct (write_summary_phaselist_writes_padded_lines Sample.disk Sample.read_csv
              Sample.from_melts_cstr (fun X => rev (elements X)) "runs" "./phaselist.txt"
              ["a"; "b"; "c"; "notes.txt"] []
              [ ("Run 1",
                 {| entry_phases := {["olivine"; "spinel"]}; entry_output := fresh true |});
                ("Run 22", entry_of (fresh true)) ])
    as (fs' & mnl & Hrun & Hmax & Hfile & _ & Hsame); [reflexivity|reflexivity|done|].
  exists fs'. split; [exact Hrun|]. split.
  - etransitivity; [exact Hfile|]. vm_compute in Hmax. injection Hmax as <-.
    vm_compute. reflexivity.
  - apply Hsame. discriminate.
Defined.

Lemma key_len_None (keys : list (option string)) :
  None ∈ keys -> result_mapM key_len keys = Raise TypeError.
Proof.
  induction keys as [|[s|] keys IH]; intros Hin.
  - by apply elem_of_nil in Hin.
  - apply elem_of_cons in Hin as [Heq|Hin]; [done|]. simpl. by rewrite IH.
  - reflexivity.
Qed.

Lemma summarised_keys (outputs : list MeltsOutput) (o : MeltsOutput) :
  o ∈ outputs -> title o ∈ dict_keys (summarised outputs []).
Proof.
  intros Hin. unfold summarised.
  apply (dict_update_keys (map (fun o => (title o, entry_of o)) outputs)
           (@nil (option string * summary_entry)) (NoDup_nil_2)).
  right. rewrite summarised_titles. by apply list_elem_of_fmap_2.
Qed.

(** X8: when the directory scanned holds an experiment folder with none of
    the six tables that carry a title, that experiment is filed under the
    title [None], and [write_summary_phaselist(dir)] raises [TypeError]
    instead of writing the report. *)
Theorem phaselist_fails_on_untitled_experiment
    (fs : filesystem) (read_csv : string -> nat -> result Pd.DataFrame)
    (from_melts_cstr : cell -> result cell) (set_iter : gset string -> list string)
    (p d filename : string) (names l : list string) :
  dir_entries fs p = Some names ->
  d ∈ names ->
  is_Some (dir_entries fs (path_join p d)) ->
  (forall name,
      name ∈ read_table_slots ->
      file_content fs (path_join (path_join p d) (slot_file name)) = None) ->
  exists l',
    write_summary_phaselist fs read_csv from_melts_cstr set_iter (DirPath p) None filename l
    = (Raise TypeError, l').
Proof.
  intros Hdir Hd Hsub Hmissing.
  unfold write_summary_phaselist, get_experiments_summary. st_unfold.
  cbn [target_folders]. unfold subdirectories. rewrite Hdir.
  set (folders := List.filter _ _).
  assert (path_join p d ∈ folders) as Hfolder.
  { unfold folders. apply list_elem_of_In, filter_In. split.
    - apply list_elem_of_In. by apply (list_elem_of_fmap_2 (path_join p)).
    - by apply bool_decide_eq_true. }
  destruct (summary_loop_spec fs read_csv from_melts_cstr false folders [] l)
    as (outs & l' & -> & Hall).
  apply list_elem_of_lookup in Hfolder as [i Hi].
  destruct (Forall2_lookup_l _ _ _ _ _ Hall Hi) as (o & Ho & (l0 & w & Hnew & <-)).
  assert (title (self w) = None) as Htitle.
  { pose proof (MeltsOutput_new_title fs read_csv from_melts_cstr (path_join p d) false l0)
      as Ht.
    rewrite Hnew in Ht. cbn [snd] in Ht. rewrite Ht. unfold read_table_slots.
    cbn [omap list_omap].
    rewrite !Hmissing by (unfold read_table_slots; elem_of_list_tac). reflexivity. }
  exists l'. rewrite key_len_None; [reflexivity|].
  rewrite <- Htitle. apply summarised_keys. by eapply list_elem_of_lookup_2.
Qed.

Lemma phaselist_fails_on_untitled_experiment_witness :
  exists l',
    write_summary_phaselist
      (Sample.fs_of [("runs/a/Bulk_comp_tbl.txt", Sample.bulk_text "Run 1")]
         [("runs", ["a"; "empty"]); ("runs/a", ["Bulk_comp_tbl.txt"]); ("runs/empty", [])])
      Sample.read_csv Sample.from_melts_cstr elements (DirPath "runs") None "phaselist.txt" []
    = (Raise TypeError, l').
Proof.
  apply (phaselist_fails_on_untitled_experiment _ _ _ _ "runs" "empty" "phaselist.txt"
           ["a"; "empty"] []).
  - reflexivity.
  - elem_of_list_tac.
  - by eexists.
  - intros name Hin. unfold read_table_slots in Hin.
    repeat (apply elem_of_cons in Hin as [->|Hin]; [reflexivity|]).
    by apply elem_of_nil in Hin.
Defined.

(** ** Columns of a table read *)

Lemma dict_get_filter_Some {K V : Type} `{EqDecision K} (P : K * V -> bool)
    (k : K) (v : V) (d : dict K V) :
  dict_get k (List.filter P d) = Some v -> P (k, v) = true /\ (k, v) ∈ d.
Proof.
  induction d as [|[k0 v0] d IH]; simpl; [done|].
  destruct (P (k0, v0)) eqn:HP; simpl.
  - destruct (decide (k0 = k)) as [->|Hne].
    + intros [= ->]. split; [done|]. apply elem_of_cons. by left.
    + intros Hget. destruct (IH Hget) as [HPk Hin]. split; [done|].
      apply elem_of_cons. by right.
  - intros Hget. destruct (IH Hget) as [HPk Hin]. split; [done|].
    apply elem_of_cons. by right.
Qed.

Lemma finish_table_other (k : bool) (parsed df : Pd.DataFrame) (name : string) :
  finish_table k parsed = Ok df ->
  name <> "Temperature" -> name <> "Mg#" ->
  dict_get name df = dict_get name (Pd.dropna_all_columns parsed).
Proof.
  unfold finish_table. cbv zeta. set (df0 := Pd.dropna_all_columns parsed).
  intros Hrun Hnt Hnm.
  destruct (if Pd.has_column "Temperature" df0 && negb k then _ else _) as [df1|] eqn:Hstep;
    [|done].
  cbn [result_bind] in Hrun.
  assert (dict_get name df1 = dict_get name df0) as Hsame.
  { destruct (Pd.has_column "Temperature" df0 && negb k).
    - by apply (isub_column_other "Temperature" name _ _ _) in Hstep.
    - by injection Hstep as <-. }
  destruct (MgNo_step df1) as (df' & Heq & Hother & _). rewrite Heq in Hrun.
  injection Hrun as <-. by rewrite Hother.
Qed.

Lemma length_MgNo_column (mgo feo : Pd.column) :
  length (MgNo_column mgo feo) = (length mgo `min` length feo)%nat.
Proof.
  revert feo. induction mgo as [|x mgo IH]; intros [|y feo]; simpl; try done.
  by rewrite IH.
Qed.

(** The steps of [read_table] after parsing go through when the
    temperatures, if they are to be converted, are numbers. *)
Lemma finish_table_returns (k : bool) (parsed : Pd.DataFrame) :
  NoDup (dict_keys parsed) ->
  (k = false ->
   forall col, dict_get "Temperature" parsed = Some col -> forallb is_num col = true) ->
  exists df, finish_table k parsed = Ok df.
Proof.
  intros Hnd Htemp. unfold finish_table. cbv zeta.
  set (df0 := Pd.dropna_all_columns parsed).
  destruct (Pd.has_column "Temperature" df0 && negb k) eqn:Hguard.
  - apply andb_true_iff in Hguard as [Hhas Hk]. apply negb_true_iff in Hk.
    apply dict_has_true in Hhas as [col Hcol].
    assert (dict_get "Temperature" parsed = Some col) as Hget.
    { unfold df0, Pd.dropna_all_columns in Hcol.
      destruct (dict_get "Temperature" parsed) as [col'|] eqn:Hp.
      - rewrite (dict_get_filter _ _ col' _ Hnd Hp) in Hcol.
        destruct (negb _); [by injection Hcol as ->|done].
      - by rewrite dict_get_filter_None in Hcol. }
    rewrite (isub_column_ok _ _ _ col Hcol (Htemp Hk col Hget)). cbn [result_bind].
    destruct (MgNo_step (dict_set "Temperature" (map (cell_minus 273.15%float) col) df0))
      as (df & -> & _).
    by exists df.
  - cbn [result_bind]. destruct (MgNo_step df0) as (df & -> & _). by exists df.
Qed.

(** A column of the parsed file after [dropna]: kept when it holds a value,
    dropped when it holds none. *)
Lemma dropna_column (parsed : Pd.DataFrame) (name : string) :
  NoDup (dict_keys parsed) ->
  dict_get name (Pd.dropna_all_columns parsed)
  = match dict_get name parsed with
    | Some col => if forallb Pd.isna col then None else Some col
    | None => None
    end.
Proof.
  intros Hnd. unfold Pd.dropna_all_columns.
  destruct (dict_get name parsed) as [col|] eqn:Hp.
  - rewrite (dict_get_filter _ _ col _ Hnd Hp). cbn [snd]. by destruct (forallb Pd.isna col).
  - by apply dict_get_filter_None.
Qed.

(** C4: a table file that parses (its temperatures numbers where they are to
    be converted) is read by [read_table] to a table that, when the file
    has an ["MgO"] and an ["FeO"] column with values, keeps both and has the
    derived column ["Mg#"], whose value in each row is the molar ratio
    Mg / (Mg + Fe) of the two oxides, (MgO / 40.3044) / (MgO / 40.3044 +
    FeO / 71.8444); when one of the two columns is absent from the file, or
    holds no value, the table lacks that column and no column is derived
    (it has an ["Mg#"] column only if the file itself carried one). *)
Theorem MgNo_column_derived_from_oxides
    (fs : filesystem) (read_csv : string -> nat -> result Pd.DataFrame)
    (path : string) (skiprows : nat) (w : world)
    (text : string) (parsed : Pd.DataFrame) :
  file_content fs path = Some text ->
  read_csv text skiprows = Ok parsed ->
  NoDup (dict_keys parsed) ->
  (kelvin (self w) = false ->
   forall col, dict_get "Temperature" parsed = Some col -> forallb is_num col = true) ->
  exists df w',
    read_table fs read_csv path skiprows w = (Ok (PyDataFrame df), w')
    /\ (forall mgo feo,
          dict_get "MgO" parsed = Some mgo -> forallb Pd.isna mgo = false ->
          dict_get "FeO" parsed = Some feo -> forallb Pd.isna feo = false ->
          dict_get "MgO" df = Some mgo
          /\ dict_get "FeO" df = Some feo
          /\ exists col,
               dict_get "Mg#" df = Some col
               /\ length col = (length mgo `min` length feo)%nat
               /\ forall i a b,
                    mgo !! i = Some (Num a) ->
                    feo !! i = Some (Num b) ->
                    col !! i
                    = Some (Num (PrimFloat.div
                                   (PrimFloat.div a 40.3044%float)
                                   (PrimFloat.add (PrimFloat.div a 40.3044%float)
                                                  (PrimFloat.div b 71.8444%float)))))
    /\ (forall name,
          name = "MgO" \/ name = "FeO" ->
          (forall col, dict_get name parsed = Some col -> forallb Pd.isna col = true) ->
          dict_get name df = None
          /\ (dict_get "Mg#" parsed = None -> dict_get "Mg#" df = None)).
Proof.
  intros Hfile Hparse Hnd Htemp.
  destruct (read_table_finish fs read_csv path skiprows w text parsed Hfile Hparse)
    as (w1 & Hrun).
  destruct (finish_table_returns (kelvin (self w)) parsed Hnd Htemp) as (df & Hdf).
  rewrite Hdf in Hrun. exists df, w1. split; [exact Hrun|].
  destruct (finish_table_MgNo _ _ _ Hdf) as [Hboth Hnone].
  assert (forall name, name = "MgO" \/ name = "FeO" ->
            dict_get name df
            = match dict_get name parsed with
              | Some col => if forallb Pd.isna col then None else Some col
              | None => None
              end) as Hoxide.
  { intros name Hname. rewrite <- (dropna_column parsed name Hnd).
    apply (finish_table_other _ _ _ name Hdf); by destruct Hname as [-> | ->]. }
  split.
  - intros mgo feo Hmgo Hmgo_na Hfeo Hfeo_na.
    assert (dict_get "MgO" df = Some mgo) as Hmgo'
      by (rewrite Hoxide by (by left); by rewrite Hmgo, Hmgo_na).
    assert (dict_get "FeO" df = Some feo) as Hfeo'
      by (rewrite Hoxide by (by right); by rewrite Hfeo, Hfeo_na).
    split; [exact Hmgo'|]. split; [exact Hfeo'|].
    exists (MgNo_column mgo feo). split; [by apply Hboth|].
    split; [apply length_MgNo_column|].
    intros i a b Ha Hb. by rewrite (MgNo_column_lookup mgo feo i a b Ha Hb).
  - intros name Hname Hcol.
    assert (dict_get name df = None) as Habsent.
    { rewrite Hoxide by done. destruct (dict_get name parsed) as [col|]; [|done].
      by rewrite (Hcol col eq_refl). }
    split; [exact Habsent|]. intros Hmg.
    apply dict_has_false. apply Hnone; [|by apply dict_has_false].
    unfold Pd.has_column.
    destruct Hname as [-> | ->]; apply dict_has_false in Habsent; rewrite Habsent;
      [done|apply andb_false_r].
Qed.

Lemma MgNo_column_derived_from_oxides_witness :
  (exists df w',
      read_table Sample.disk Sample.read_csv "runs/a/Bulk_comp_tbl.txt" 3 (Sample.start true)
      = (Ok (PyDataFrame df), w')
      /\ Pd.at_row "MgO" 0 df = Some (Num 10%float)
      /\ Pd.at_row "FeO" 0 df = Some (Num 8%float)
      /\ Pd.at_row "Mg#" 0 df = Some (Num 0.6902280303036126%float))
  /\ (exists df w',
        read_table Sample.disk Sample.read_csv "runs/a/Liquid_comp_tbl.txt" 3
          (Sample.start true)
        = (Ok (PyDataFrame df), w')
        /\ dict_get "FeO" df = None
        /\ dict_get "Mg#" df = None).
Proof.
  split.
  - destruct (MgNo_column_derived_from_oxides Sample.disk Sample.read_csv
                "runs/a/Bulk_comp_tbl.txt" 3 (Sample.start true)
                (Sample.bulk_text "Run 1") Sample.bulk_table)
      as (df & w' & Hrun & Hboth & _).
    + reflexivity.
    + vm_compute. reflexivity.
    + apply (bool_decide_unpack _). by vm_compute.
    + discriminate.
    + exists df, w'. split; [exact Hrun|].
      destruct (Hboth [Num 10%float; Num 9%float] [Num 8%float; Num 7%float])
        as (Hmgo & Hfeo & col & Hcol & _ & Hrows); [reflexivity..|].
      unfold Pd.at_row. rewrite Hmgo, Hfeo, Hcol.
      split; [reflexivity|]. split; [reflexivity|].
      by rewrite (Hrows 0%nat 10%float 8%float).
  - destruct (MgNo_column_derived_from_oxides Sample.disk Sample.read_csv
                "runs/a/Liquid_comp_tbl.txt" 3 (Sample.start true)
                (Sample.liquid_text "Run 1") Sample.liquid_table)
      as (df & w' & Hrun & _ & Hnone).
    + reflexivity.
    + vm_compute. reflexivity.
    + apply (bool_decide_unpack _). by vm_compute.
    + discriminate.
    + exists df, w'. split; [exact Hrun|].
      destruct (Hnone "FeO") as [Hfeo Hmg]; [by right|by intros col [=]|].
      split; [exact Hfeo|]. by apply Hmg.
Defined.

(** X9: [read_table] changes no column other than "Temperature" and
    "Mg#": each other column of its result is a column of the parsed file
    that holds at least one value, and the columns of the file that hold no
    value at all are dropped. *)
Theorem read_table_keeps_columns_with_values
    (fs : filesystem) (read_csv : string -> nat -> result Pd.DataFrame)
    (path : string) (skiprows : nat) (w w' : world)
    (text : string) (parsed df : Pd.DataFrame) (name : string) :
  file_content fs path = Some text ->
  read_csv text skiprows = Ok parsed ->
  read_table fs read_csv path skiprows w = (Ok (PyDataFrame df), w') ->
  name <> "Temperature" -> name <> "Mg#" ->
  dict_get name df = dict_get name (Pd.dropna_all_columns parsed)
  /\ forall col,
       dict_get name df = Some col ->
       forallb Pd.isna col = false /\ (name, col) ∈ parsed.
Proof.
  intros Hfile Hparse Hrun Hnt Hnm.
  destruct (read_table_finish fs read_csv path skiprows w text parsed Hfile Hparse)
    as (w1 & Hfinish).
  rewrite Hfinish in Hrun.
  destruct (finish_table (kelvin (self w)) parsed) as [df0|e] eqn:Hdf; [|done].
  simpl in Hrun. injection Hrun as -> _.
  pose proof (finish_table_other _ _ _ name Hdf Hnt Hnm) as Hsame.
  split; [exact Hsame|]. intros col Hcol. rewrite Hsame in Hcol.
  unfold Pd.dropna_all_columns in Hcol.
  apply dict_get_filter_Some in Hcol as [Hkeep Hin]. split; [|exact Hin].
  by apply negb_true_iff in Hkeep.
Qed.

Lemma read_table_keeps_columns_with_values_witness :
  exists df w',
    read_table Sample.disk Sample.read_csv "runs/a/Bulk_comp_tbl.txt" 3 (Sample.start false)
    = (Ok (PyDataFrame df), w')
    /\ dict_get "SiO2" df = Some [Num 50%float; Num 51%float].
Proof.
  destruct (read_table Sample.disk Sample.read_csv "runs/a/Bulk_comp_tbl.txt" 3
              (Sample.start false)) as [[[|df]|e] w'] eqn:Hrun;
    try (vm_compute in Hrun; discriminate).
  exists df, w'. split; [reflexivity|].
  destruct (read_table_keeps_columns_with_values Sample.disk Sample.read_csv
              "runs/a/Bulk_comp_tbl.txt" 3 (Sample.start false) w'
              (Sample.bulk_text "Run 1") Sample.bulk_table df "SiO2")
    as [Hsame _]; [reflexivity|vm_compute; reflexivity|exact Hrun|discriminate..|].
  rewrite Hsame. vm_compute. reflexivity.
Defined.

(** X10: the names the [tables] property advertises are the attributes the
    constructor assigns, except [phasemain]. *)
Theorem tables_are_the_slots_but_phasemain
    (fs : filesystem) (read_csv : string -> nat -> result Pd.DataFrame)
    (from_melts_cstr : cell -> result cell)
    (directory : string) (k : bool) (l : list string) (name : string) :
  name ∈ tables
  <-> name ∈ dict_keys (attrs (self (MeltsOutput_new fs read_csv from_melts_cstr
                                       directory k l).2))
      /\ name <> "phasemain".
Proof.
  destruct (init_slots fs read_csv from_melts_cstr directory k l (fun _ _ => True))
    as (w & Hrun & Hkeys & _); [done|].
  rewrite Hrun. cbn [snd]. rewrite Hkeys.
  unfold tables, slot_names. rewrite !elem_of_union, !elem_of_singleton.
  rewrite !elem_of_cons, elem_of_nil. split.
  - intros Hin. split; [tauto|]. intros ->.
    destruct Hin as [[[[[[H|H]|H]|H]|H]|H]|H]; discriminate H.
  - intros [Hin Hne]. tauto.
Qed.

(** ** Missing and malformed table files *)

Section ErrorPaths.
Variable fs : filesystem.
Variable read_csv : string -> nat -> result Pd.DataFrame.
Variable from_melts_cstr : cell -> result cell.

(** A file that is there but does not parse: [read_table] raises what the
    parser raised, after the title of the file was noted. *)
Lemma read_table_parse_error path n w text e :
  file_content fs path = Some text ->
  read_csv text n = Raise e ->
  exists w1,
    read_table fs read_csv path n w = (Raise e, w1)
    /\ _set_title (title_line text) w = (Ok tt, w1).
Proof.
  intros Hfile Hparse.
  destruct (_set_title_run (title_line text) w) as (w1 & Hset & _).
  exists w1. split; [|exact Hset].
  unfold read_table. cbn [bound_method_truth andb].
  unfold bind at 1. rewrite _get_table_title_run. unfold open_read. rewrite Hfile.
  cbn [result_map result_bind]. unfold bind at 1. rewrite Hset.
  unfold bind at 1. unfold lift. cbn [result_bind]. by rewrite Hparse.
Qed.

End ErrorPaths.

(** X11: a table file that exists but that the parser rejects leaves its
    slot with an empty table; the object still takes the file's title if it
    had none, and the debug message of the failed import carries the title
    as it is then. *)
Theorem malformed_table_gives_empty_slot
    (fs : filesystem) (read_csv : string -> nat -> result Pd.DataFrame)
    (directory name file text : string) (e : exn) (w : world) :
  file_content fs (path_join directory file) = Some text ->
  read_csv text 3%nat = Raise e ->
  exists w',
    load_slot directory (name, file, fun p => _read_comp fs read_csv p 3) w = (Ok tt, w')
    /\ dict_get name (attrs (self w')) = Some (PyDataFrame Pd.empty)
    /\ title (self w') = note_title (title (self w)) (Some (title_line text))
    /\ log w'
       = match title (self w) with
         | Some cur =>
             if String.eqb (title_line text) cur then log w
             else log w ++ [title_conflict (title_line text) cur]
         | None => log w
         end
         ++ [import_error (title (self w')) (path_join directory file)].
Proof.
  intros Hfile Hparse.
  destruct (read_table_parse_error fs read_csv _ _ w _ _ Hfile Hparse) as (w1 & Hrun & Hset).
  destruct (_set_title_run (title_line text) w) as (w1' & Hset' & Htitle & Hlog & _ & _ & _).
  rewrite Hset in Hset'. injection Hset' as <-.
  rewrite load_slot_eq. unfold _read_comp, bind. rewrite Hrun. eexists.
  split; [reflexivity|]. simpl. rewrite dict_get_set_eq, Htitle, Hlog. by repeat split.
Qed.

Lemma malformed_table_gives_empty_slot_witness :
  exists w',
    load_slot "."
      ("bulkcomp", "Bulk_comp_tbl.txt",
       fun p => _read_comp
                  (Sample.fs_of [("Bulk_comp_tbl.txt", "Title: Cut short" +:+ nl)] [])
                  Sample.read_csv p 3)
      (Sample.start true)
    = (Ok tt, w')
    /\ dict_get "bulkcomp" (attrs (self w')) = Some (PyDataFrame Pd.empty)
    /\ title (self w') = Some "Cut short"
    /\ log w' = ["Error on table import: Cut short Bulk_comp_tbl.txt"].
Proof.
  destruct (malformed_table_gives_empty_slot
              (Sample.fs_of [("Bulk_comp_tbl.txt", "Title: Cut short" +:+ nl)] [])
              Sample.read_csv "." "bulkcomp" "Bulk_comp_tbl.txt"
              ("Title: Cut short" +:+ nl) ParserError (Sample.start true))
    as (w' & Hrun & Hattr & Htitle & Hlog); [reflexivity|reflexivity|].
  exists w'. split; [exact Hrun|]. split; [exact Hattr|]. split; [exact Htitle|].
  rewrite Hlog, Htitle. reflexivity.
Defined.

Lemma after_slot_raise (dir name file : string) (load : string -> ST world pyval)
    (o : MeltsOutput) (lg : list string) (e : exn) :
  load (path_join dir file) {| self := o; log := lg |} = (Raise e, {| self := o; log := lg |}) ->
  after_slot dir (name, file, load) {| self := o; log := lg |}
  = {| self := with_attrs (dict_set name (PyDataFrame Pd.empty) (attrs o)) o;
       log := lg ++ [import_error (title o) (path_join dir file)] |}.
Proof. intros Hload. unfold after_slot, after_load. cbn [fst snd]. by rewrite Hload. Qed.

(** X12: in a directory with none of the table files the constructor logs
    one import error per slot other than [tracecomp], in slot order and
    with the title [None], and leaves an object with no title, no phase
    and an empty table in each of those seven slots. *)
Theorem constructor_on_directory_without_tables
    (fs : filesystem) (read_csv : string -> nat -> result Pd.DataFrame)
    (from_melts_cstr : cell -> result cell)
    (directory : string) (k : bool) (l : list string) :
  (forall name,
      name ∈ slot_names -> name <> "tracecomp" ->
      file_content fs (path_join directory (slot_file name)) = None) ->
  MeltsOutput_new fs read_csv from_melts_cstr directory k l
  = (Ok tt,
     {| self :=
          {| title := None; kelvin := k; phasenames := ∅; majors := ∅; traces := ∅;
             phases := [];
             attrs := [ ("bulkcomp", PyDataFrame Pd.empty);
                        ("solidcomp", PyDataFrame Pd.empty);
                        ("liquidcomp", PyDataFrame Pd.empty);
                        ("phasemass", PyDataFrame Pd.empty);
                        ("phasevol", PyDataFrame Pd.empty);
                        ("tracecomp", PyNone);
                        ("system", PyDataFrame Pd.empty);
                        ("phasemain", PyDataFrame Pd.empty) ] |};
        log := l ++ map (fun name => import_error None (path_join directory (slot_file name)))
                        [ "bulkcomp"; "solidcomp"; "liquidcomp"; "phasemass"; "phasevol";
                          "system"; "phasemain" ] |}).
Proof.
  intros Hmissing.
  assert (forall name, name ∈ slot_names -> name <> "tracecomp" ->
                       forall file, file = slot_file name ->
                                    file_content fs (path_join directory file) = None) as Hfile.
  { intros name Hin Hne file ->. by apply Hmissing. }
  rewrite MeltsOutput_new_unrolled. unfold table_loaders, fresh. cbn [fold_left].
  rewrite (after_slot_raise directory "bulkcomp" _ _ _ _ FileNotFoundError)
    by (apply (_read_comp_missing fs read_csv), (Hfile "bulkcomp");
        [unfold slot_names; elem_of_list_tac|done|done]).
  cbn [with_attrs attrs title kelvin phasenames majors traces phases].
  rewrite (after_slot_raise directory "solidcomp" _ _ _ _ FileNotFoundError)
    by (apply (_read_comp_missing fs read_csv), (Hfile "solidcomp");
        [unfold slot_names; elem_of_list_tac|done|done]).
  cbn [with_attrs attrs title kelvin phasenames majors traces phases].
  rewrite (after_slot_raise directory "liquidcomp" _ _ _ _ FileNotFoundError)
    by (apply (_read_comp_missing fs read_csv), (Hfile "liquidcomp");
        [unfold slot_names; elem_of_list_tac|done|done]).
  cbn [with_attrs attrs title kelvin phasenames majors traces phases].
  rewrite (after_slot_raise directory "phasemass" _ _ _ _ FileNotFoundError)
    by (apply (_read_phase_table_missing fs read_csv), (Hfile "phasemass");
        [unfold slot_names; elem_of_list_tac|done|done]).
  cbn [with_attrs attrs title kelvin phasenames majors traces phases].
  rewrite (after_slot_raise directory "phasevol" _ _ _ _ FileNotFoundError)
    by (apply (_read_phase_table_missing fs read_csv), (Hfile "phasevol");
        [unfold slot_names; elem_of_list_tac|done|done]).
  cbn [with_attrs attrs title kelvin phasenames majors traces phases].
  unfold after_slot at 3. unfold after_load, _read_trace, slot_assigned.
  cbn [fst snd ret self log with_attrs attrs title kelvin phasenames majors traces phases].
  rewrite (after_slot_raise directory "system" _ _ _ _ FileNotFoundError)
    by (apply (_read_comp_missing fs read_csv), (Hfile "system");
        [unfold slot_names; elem_of_list_tac|done|done]).
  cbn [with_attrs attrs title kelvin phasenames majors traces phases].
  rewrite (after_slot_raise directory "phasemain" _ _ _ _ FileNotFoundError)
    by (apply (_read_phasemain_missing fs read_csv from_melts_cstr), (Hfile "phasemain");
        [unfold slot_names; elem_of_list_tac|done|done]).
  cbn [with_attrs attrs title kelvin phasenames majors traces phases].
  rewrite <- !app_assoc. reflexivity.
Qed.

Lemma constructor_on_directory_without_tables_witness :
  log (Sample.new Sample.no_files "runs/a/" true).2
  = [ "Error on table import: None runs/a/Bulk_comp_tbl.txt";
      "Error on table import: None runs/a/Solid_comp_tbl.txt";
      "Error on table import: None runs/a/Liquid_comp_tbl.txt";
      "Error on table import: None runs/a/Phase_mass_tbl.txt";
      "Error on table import: None runs/a/Phase_vol_tbl.txt";
      "Error on table import: None runs/a/System_main_tbl.txt";
      "Error on table import: None runs/a/Phase_main_tbl.txt" ].
Proof.
  unfold Sample.new.
  rewrite (constructor_on_directory_without_tables Sample.no_files Sample.read_csv
             Sample.from_melts_cstr "runs/a/" true []); [reflexivity|].
  intros name _ _. reflexivity.
Defined.

(** ** The temperature flag *)

Lemma mapM_cell_sub_inv (x : float) (col col' : Pd.column) :
  result_mapM (Pd.cell_sub x) col = Ok col' -> col' = map (cell_minus x) col.
Proof.
  revert col'. induction col as [|[f|s] col IH]; intros col'; simpl.
  - by intros [= <-].
  - destruct (result_mapM (Pd.cell_sub x) col) as [cs|]; simpl; [|done].
    intros [= <-]. by rewrite (IH cs eq_refl).
  - done.
Qed.

(** The two modes on one parsed frame. *)
Lemma finish_table_modes (parsed dfk dfc : Pd.DataFrame) :
  finish_table true parsed = Ok dfk ->
  finish_table false parsed = Ok dfc ->
  (forall name, name <> "Temperature" -> dict_get name dfc = dict_get name dfk)
  /\ forall col,
       dict_get "Temperature" dfk = Some col ->
       dict_get "Temperature" dfc = Some (map (cell_minus 273.15%float) col).
Proof.
  unfold finish_table. cbv zeta. set (df0 := Pd.dropna_all_columns parsed).
  rewrite andb_false_r, andb_true_r. cbn [result_bind]. intros Hk Hc.
  destruct (MgNo_step df0) as (dk & Heqk & Hotherk & Hsetk & Hskipk).
  rewrite Heqk in Hk. injection Hk as ->.
  destruct (if Pd.has_column "Temperature" df0 then _ else _) as [df1|] eqn:Hstep; [|done].
  cbn [result_bind] in Hc.
  destruct (MgNo_step df1) as (dc & Heqc & Hotherc & Hsetc & Hskipc).
  rewrite Heqc in Hc. injection Hc as ->.
  assert (forall name, name <> "Temperature" -> dict_get name df1 = dict_get name df0) as Hsame.
  { intros name Hne. destruct (Pd.has_column "Temperature" df0).
    - by apply (isub_column_other "Temperature" name _ _ _) in Hstep.
    - by injection Hstep as <-. }
  split.
  - intros name Hne. destruct (decide (name = "Mg#")) as [->|Hnm].
    + destruct (dict_get "MgO" df0) as [mgo|] eqn:Hmgo,
          (dict_get "FeO" df0) as [feo|] eqn:Hfeo.
      * rewrite (Hsetk mgo feo) by done. apply Hsetc; by rewrite Hsame.
      * rewrite Hskipk, Hskipc; [by apply Hsame| |].
        -- unfold Pd.has_column. rewrite !dict_has_get, !Hsame, Hmgo, Hfeo by done.
           rewrite (bool_decide_eq_false_2 (is_Some None)) by (by intros [? ?]).
           apply andb_false_r.
        -- unfold Pd.has_column. rewrite !dict_has_get, Hmgo, Hfeo.
           rewrite (bool_decide_eq_false_2 (is_Some None)) by (by intros [? ?]).
           apply andb_false_r.
      * rewrite Hskipk, Hskipc; [by apply Hsame| |].
        -- unfold Pd.has_column. rewrite !dict_has_get, !Hsame, Hmgo by done.
           by rewrite (bool_decide_eq_false_2 (is_Some None)) by (by intros [? ?]).
        -- unfold Pd.has_column. rewrite !dict_has_get, Hmgo.
           by rewrite (bool_decide_eq_false_2 (is_Some None)) by (by intros [? ?]).
      * rewrite Hskipk, Hskipc; [by apply Hsame| |].
        -- unfold Pd.has_column. rewrite !dict_has_get, !Hsame, Hmgo by done.
           by rewrite (bool_decide_eq_false_2 (is_Some None)) by (by intros [? ?]).
        -- unfold Pd.has_column. rewrite !dict_has_get, Hmgo.
           by rewrite (bool_decide_eq_false_2 (is_Some None)) by (by intros [? ?]).
    + by rewrite Hotherc, Hotherk, Hsame.
  - intros col. rewrite Hotherk, Hotherc by done. intros Hcol.
    unfold Pd.has_column in Hstep. rewrite dict_has_get, Hcol in Hstep.
    rewrite bool_decide_eq_true_2 in Hstep by (by eexists).
    unfold Pd.isub_column in Hstep. rewrite Hcol in Hstep.
    destruct (result_mapM (Pd.cell_sub 273.15%float) col) as [col'|] eqn:Hsub; [|done].
    apply mapM_cell_sub_inv in Hsub as ->. simpl in Hstep. injection Hstep as <-.
    apply dict_get_set_eq.
Qed.

(** X13: reading one file in Kelvin mode and in Celsius mode gives tables
    that agree on every column but "Temperature", the Celsius one holding
    the Kelvin values minus 273.15. *)
Theorem kelvin_flag_only_changes_temperature
    (fs : filesystem) (read_csv : string -> nat -> result Pd.DataFrame)
    (path : string) (skiprows : nat) (wk wc wk' wc' : world)
    (text : string) (parsed dfk dfc : Pd.DataFrame) :
  file_content fs path = Some text ->
  read_csv text skiprows = Ok parsed ->
  kelvin (self wk) = true ->
  kelvin (self wc) = false ->
  read_table fs read_csv path skiprows wk = (Ok (PyDataFrame dfk), wk') ->
  read_table fs read_csv path skiprows wc = (Ok (PyDataFrame dfc), wc') ->
  (forall name, name <> "Temperature" -> dict_get name dfc = dict_get name dfk)
  /\ forall col,
       dict_get "Temperature" dfk = Some col ->
       dict_get "Temperature" dfc = Some (map (cell_minus 273.15%float) col).
Proof.
  intros Hfile Hparse Hk Hc Hrunk Hrunc.
  destruct (read_table_finish fs read_csv path skiprows wk text parsed Hfile Hparse)
    as (w1 & Hfk).
  destruct (read_table_finish fs read_csv path skiprows wc text parsed Hfile Hparse)
    as (w2 & Hfc).
  rewrite Hfk, Hk in Hrunk. rewrite Hfc, Hc in Hrunc.
  destruct (finish_table true parsed) as [dk|] eqn:Hdk; [|done].
  destruct (finish_table false parsed) as [dc|] eqn:Hdc; [|done].
  simpl in Hrunk, Hrunc. injection Hrunk as -> _. injection Hrunc as -> _.
  by apply (finish_table_modes parsed).
Qed.

Lemma kelvin_flag_only_changes_temperature_witness :
  exists dfk dfc wk' wc',
    read_table Sample.disk Sample.read_csv "runs/a/Bulk_comp_tbl.txt" 3 (Sample.start true)
    = (Ok (PyDataFrame dfk), wk')
    /\ read_table Sample.disk Sample.read_csv "runs/a/Bulk_comp_tbl.txt" 3
         (Sample.start false)
       = (Ok (PyDataFrame dfc), wc')
    /\ dict_get "Mg#" dfc = dict_get "Mg#" dfk
    /\ dict_get "Temperature" dfk = Some [Num 1500%float; Num 1400%float]
    /\ dict_get "Temperature" dfc = Some [Num 1226.85%float; Num 1126.85%float].
Proof.
  destruct (read_table Sample.disk Sample.read_csv "runs/a/Bulk_comp_tbl.txt" 3
              (Sample.start true)) as [[[|dfk]|e] wk'] eqn:Hrunk;
    try (vm_compute in Hrunk; discriminate).
  destruct (read_table Sample.disk Sample.read_csv "runs/a/Bulk_comp_tbl.txt" 3
              (Sample.start false)) as [[[|dfc]|e] wc'] eqn:Hrunc;
    try (vm_compute in Hrunc; discriminate).
  exists dfk, dfc, wk', wc'. split; [reflexivity|]. split; [reflexivity|].
  destruct (kelvin_flag_only_changes_temperature Sample.disk Sample.read_csv
              "runs/a/Bulk_comp_tbl.txt" 3 (Sample.start true) (Sample.start false)
              wk' wc' (Sample.bulk_text "Run 1") Sample.bulk_table dfk dfc)
    as [Hother Htemp]; [reflexivity|vm_compute; reflexivity|reflexivity|reflexivity
                        |exact Hrunk|exact Hrunc|].
  split; [by apply Hother|].
  assert (dict_get "Temperature" dfk = Some [Num 1500%float; Num 1400%float]) as Hcol
    by (vm_compute in Hrunk; injection Hrunk as <- _; reflexivity).
  split; [exact Hcol|]. by rewrite (Htemp _ Hcol).
Defined.
